(** * Blog-Writing-Multi-Agent: router, research, orchestrator, fan-out, reducer

    A shallow embedding of the pipeline's stage functions
    (nodes/router.py, nodes/research.py, nodes/orchestrator.py,
    nodes/worker.py, nodes/reducer.py, graph/fanout.py, graph/builder.py,
    schemas/__init__.py, utils/__init__.py) and the properties of the
    orchestration they implement. *)

From Stdlib Require Import ZArith NArith List String Ascii Bool Lia.
From Stdlib Require Import Permutation Sorted.
Import ListNotations.
Open Scope Z_scope.

(** ** Python values used by the stages *)

Module Py.

(** A Python [str] is a sequence of Unicode code points. *)
Definition char := N.
Definition str := list char.

(** Literal text, for readable examples: each character of an ASCII literal
    is its code point. *)
Definition lit (s : string) : str := map N_of_ascii (list_ascii_of_string s).

Definition LF : char := 10%N.
Definition DQUOTE : char := 34%N.

Fixpoint str_eqb (a b : str) : bool :=
  match a, b with
  | [], [] => true
  | x :: a', y :: b' => N.eqb x y && str_eqb a' b'
  | _, _ => false
  end.

(** Truthiness of a string: [if s] holds exactly for the non-empty ones. *)
Definition truthy (s : str) : bool :=
  match s with [] => false | _ :: _ => true end.

(** Truthiness of an [Optional[str]]: [None] and [""] are falsy. *)
Definition otruthy (o : option str) : bool :=
  match o with Some s => truthy s | None => false end.

(** [a or b] on optional strings. *)
Definition or_opt (a b : option str) : option str :=
  if otruthy a then a else b.

(** [a or ""]. *)
Definition or_empty (a : option str) : str :=
  match a with Some (c :: s) => c :: s | _ => [] end.

(** The code points [str.isspace] accepts, which are the ones [str.strip()]
    removes. *)
Definition isspace (c : char) : bool :=
  ((9 <=? c) && (c <=? 13) || (28 <=? c) && (c <=? 32)
   || (c =? 133) || (c =? 160) || (c =? 5760)
   || (8192 <=? c) && (c <=? 8202)
   || (c =? 8232) || (c =? 8233) || (c =? 8239) || (c =? 8287)
   || (c =? 12288))%N.

Fixpoint lstrip (s : str) : str :=
  match s with
  | [] => []
  | c :: r => if isspace c then lstrip r else s
  end.

Definition rstrip (s : str) : str := rev (lstrip (rev s)).

Definition strip (s : str) : str := rstrip (lstrip s).

(** [sep.join(parts)] *)
Fixpoint join (sep : str) (parts : list str) : str :=
  match parts with
  | [] => []
  | [p] => p
  | p :: rest => p ++ sep ++ join sep rest
  end.

(** [sorted(l, key=...)] is a stable sort; on pairs keyed by their first
    component, as the reducer calls it. An element that comes earlier in the
    input goes before the equal-keyed ones already placed. *)
Section Sorted.
Context {A : Type}.
Variable key : A -> Z.

Fixpoint insert_by (x : A) (l : list A) : list A :=
  match l with
  | [] => [x]
  | y :: r => if key x <=? key y then x :: l else y :: insert_by x r
  end.

Definition sorted (l : list A) : list A := fold_right insert_by [] l.
End Sorted.

(** A [dict] keeps its keys in insertion order; assigning to a key that is
    present replaces the value where it stands. *)
Section Dict.
Context {V : Type}.

Definition dict := list (str * V).

Fixpoint dict_set (k : str) (v : V) (d : dict) : dict :=
  match d with
  | [] => [(k, v)]
  | (k', v') :: r =>
      if str_eqb k' k then (k', v) :: r else (k', v') :: dict_set k v r
  end.

Fixpoint dict_get (k : str) (d : dict) : option V :=
  match d with
  | [] => None
  | (k', v') :: r => if str_eqb k' k then Some v' else dict_get k r
  end.

(** [d.get(k, default)] *)
Definition dict_get_default (k : str) (default : V) (d : dict) : V :=
  match dict_get k d with Some v => v | None => default end.

Definition dict_values (d : dict) : list V := map snd d.
End Dict.
Arguments dict : clear implicits.

(** Exceptions the stages raise or let through. *)
Inductive exn :=
| ValueError
| AssertionError
| OverflowError
| GraphRecursionError
| OSError (errno : N)
| UnicodeEncodeError
| ExternalError (code : N).

Inductive Result (A : Type) :=
| Ok (a : A)
| Raise (e : exn).
Arguments Ok {A} a.
Arguments Raise {A} e.

(** *** [datetime.date]

    A date is represented by its proleptic Gregorian ordinal
    ([date.toordinal()]): dates compare as their ordinals do, and
    subtracting a [timedelta] of whole days subtracts from the ordinal. *)
Definition date := Z.

Definition is_leap (y : Z) : bool :=
  (y mod 4 =? 0) && (negb (y mod 100 =? 0) || (y mod 400 =? 0)).

Definition days_in_month (y m : Z) : Z :=
  if m =? 2 then (if is_leap y then 29 else 28)
  else if (m =? 4) || (m =? 6) || (m =? 9) || (m =? 11) then 30
  else 31.

Definition days_before_year (y : Z) : Z :=
  let y1 := y - 1 in y1 * 365 + y1 / 4 - y1 / 100 + y1 / 400.

Fixpoint days_before_month_aux (y : Z) (n : nat) : Z :=
  match n with
  | O => 0
  | S k => days_before_month_aux y k + days_in_month y (Z.of_nat (S k))
  end.

(** Days of year [y] before the first of month [m]. *)
Definition days_before_month (y m : Z) : Z :=
  days_before_month_aux y (Z.to_nat (m - 1)).

Definition ymd2ord (y m d : Z) : date :=
  days_before_year y + days_before_month y m + d.

Definition MINORD : Z := 1.
Definition MAXORD : Z := 3652059.

Definition digit (c : char) : option Z :=
  if ((48 <=? c) && (c <=? 57))%N then Some (Z.of_N c - 48) else None.

Fixpoint digits_aux (acc : Z) (s : str) : option Z :=
  match s with
  | [] => Some acc
  | c :: r =>
      match digit c with
      | Some d => digits_aux (acc * 10 + d) r
      | None => None
      end
  end.

Definition digits (s : str) : option Z :=
  match s with [] => None | _ => digits_aux 0 s end.

Definition HYPHEN : char := 45%N.

(** A reader of the one form [YYYY-MM-DD], for the sample runs: every
    version of [date.fromisoformat] reads a string of this form, as this
    date. It is not [date.fromisoformat], which reads more forms in later
    versions of the library; the stages take that function from their
    runtime. *)
Definition read_yyyy_mm_dd (s : str) : option date :=
  match s with
  | [y1; y2; y3; y4; h1; m1; m2; h2; d1; d2] =>
      if (h1 =? HYPHEN)%N && (h2 =? HYPHEN)%N then
        match digits [y1; y2; y3; y4], digits [m1; m2], digits [d1; d2] with
        | Some y, Some m, Some d =>
            if (1 <=? y) && (1 <=? m) && (m <=? 12)
               && (1 <=? d) && (d <=? days_in_month y m)
            then Some (ymd2ord y m d)
            else None
        | _, _, _ => None
        end
      else None
  | _ => None
  end.

(** [d - timedelta(days=n)]: out of the supported range of either type the
    subtraction raises [OverflowError]. *)
Definition date_sub_days (d : date) (n : Z) : Result date :=
  if (Z.abs n <=? 999999999) && (MINORD <=? d - n) && (d - n <=? MAXORD)
  then Ok (d - n) else Raise OverflowError.

End Py.
Import Py.

(** ** schemas/__init__.py *)

Record Task := mkTask {
  task_id : Z;
  task_title : str;
  goal : str;
  bullets : list str;
  target_words : Z;
  tags : list str;
  requires_research : bool;
  requires_citations : bool;
  requires_code : bool
}.

Inductive BlogKind :=
| explainer | tutorial | news_roundup | comparison | system_design.

Record Plan := mkPlan {
  blog_title : str;
  audience : str;
  tone : str;
  blog_kind : BlogKind;
  constraints : list str;
  tasks : list Task
}.

(** [plan.blog_kind = k] *)
Definition set_blog_kind (k : BlogKind) (p : Plan) : Plan :=
  mkPlan (blog_title p) (audience p) (tone p) k (constraints p) (tasks p).

Record EvidenceItem := mkEvidenceItem {
  ev_title : str;
  url : str;
  published_at : option str;
  snippet : option str;
  source : option str
}.

Record EvidencePack := mkEvidencePack {
  pack_evidence : list EvidenceItem
}.

(** The three values the [Literal] type of [RouterDecision.mode] admits. *)
Inductive Mode := closed_book | hybrid | open_book.

Definition mode_str (m : Mode) : str :=
  match m with
  | closed_book => lit "closed_book"
  | hybrid => lit "hybrid"
  | open_book => lit "open_book"
  end.

Record RouterDecision := mkRouterDecision {
  d_needs_research : bool;
  d_mode : Mode;
  d_reason : str;
  d_queries : list str;
  d_max_results_per_query : Z
}.

(** The shared state; every key is present from the start of a run
    (main.py, [_initial_state]). *)
Record State := mkState {
  topic : str;
  mode : str;
  needs_research : bool;
  queries : list str;
  evidence : list EvidenceItem;
  plan : option Plan;
  as_of : str;
  recency_days : Z;
  sections : list (Z * str);
  final : str
}.

(** What a node returns: a dict holding some of the state's keys. *)
Record Update := mkUpdate {
  u_mode : option str;
  u_needs_research : option bool;
  u_queries : option (list str);
  u_evidence : option (list EvidenceItem);
  u_plan : option Plan;
  u_recency_days : option Z;
  u_sections : option (list (Z * str));
  u_final : option str
}.

Definition or_keep {A : Type} (new : option A) (old : A) : A :=
  match new with Some a => a | None => old end.

(** Merging a node's return value into the state: a returned key overwrites
    the state's, except [sections], whose annotation [operator.add]
    concatenates. *)
Definition apply_update (u : Update) (st : State) : State :=
  mkState (topic st)
          (or_keep (u_mode u) (mode st))
          (or_keep (u_needs_research u) (needs_research st))
          (or_keep (u_queries u) (queries st))
          (or_keep (u_evidence u) (evidence st))
          (match u_plan u with Some p => Some p | None => plan st end)
          (as_of st)
          (or_keep (u_recency_days u) (recency_days st))
          (match u_sections u with
           | Some s => sections st ++ s
           | None => sections st
           end)
          (or_keep (u_final u) (final st)).

(** main.py, [_initial_state] *)
Definition _initial_state (topic as_of : str) : State :=
  mkState topic [] false [] [] None as_of 7 [] [].

(** ** The external collaborators

    The language-model calls, the search tool and the file system are opaque
    services. A request carries the values the stage formats into its
    prompt; a call may raise. *)

(** One record of the search tool's answer, with the keys
    [tavily_search] reads. *)
Record RawRecord := mkRawRecord {
  r_title : option str;
  r_url : option str;
  r_content : option str;
  r_snippet : option str;
  r_published_date : option str;
  r_published_at : option str;
  r_source : option str
}.

Inductive RawItem :=
| NotADict
| ADict (r : RawRecord).

(** The tool answers with a dict, whose ["results"] key may be absent, or
    with a bare list. *)
Inductive ToolResponse :=
| RespDict (results : option (list RawItem))
| RespList (results : list RawItem).

(** What [tavily_search] returns for each result. *)
Record Normalized := mkNormalized {
  n_title : str;
  n_url : str;
  n_snippet : str;
  n_published_at : option str;
  n_source : option str
}.

Record DecideRequest := mkDecideRequest {
  dr_topic : str;
  dr_as_of : str
}.

Record ExtractRequest := mkExtractRequest {
  er_as_of : str;
  er_recency_days : Z;
  er_raw_results : list Normalized
}.

Record PlanRequest := mkPlanRequest {
  pr_topic : str;
  pr_mode : str;
  pr_as_of : str;
  pr_recency_days : Z;
  pr_force_news_note : str;
  pr_evidence : list EvidenceItem
}.

Record WriteRequest := mkWriteRequest {
  wr_plan : Plan;
  wr_topic : str;
  wr_mode : str;
  wr_as_of : str;
  wr_recency_days : Z;
  wr_task : Task;
  wr_bullets_text : str;
  wr_evidence_text : str
}.

(** What the operating system does with the write of a text under a file
    name: it goes through; or the file cannot be opened (name too long, no
    permission) and nothing changes; or the file is opened and the writing
    fails, leaving [remains] in it. *)
Inductive WriteOutcome :=
| Written
| OpenFails (e : exn)
| WriteFails (e : exn) (remains : str).

(** The collaborators, and the two parts of the runtime the stages lean
    on: [date_reads] is [date.fromisoformat] of the library at hand (the
    date it reads a string as, [None] where it raises [ValueError]; which
    forms it reads depends on the version), and [fs_outcome] is the file
    system, asked with the name, the text and the files present. *)
Record Services := mkServices {
  decider_invoke : DecideRequest -> Result RouterDecision;
  tool_invoke : str -> Z -> Result ToolResponse;
  extractor_invoke : ExtractRequest -> Result EvidencePack;
  planner_invoke : PlanRequest -> Result Plan;
  llm_invoke : WriteRequest -> Result str;
  date_reads : str -> option date;
  fs_outcome : str -> str -> dict str -> WriteOutcome
}.

(** A record of every call made to a collaborator, oldest first. *)
Inductive Event :=
| CallDecider (r : DecideRequest)
| CallSearch (query : str) (max_results : Z)
| CallExtractor (r : ExtractRequest)
| CallPlanner (r : PlanRequest)
| CallLlm (r : WriteRequest)
| WriteText (filename content : str).

(** The world outside the process: the calls made so far and the files of
    the working directory, by name. *)
Record World := mkWorld {
  calls : list Event;
  files : dict str
}.

(** ** Stage code runs in a state-and-exception monad over the world *)

Definition M (A : Type) : Type := World -> Result A * World.

Definition ret {A} (a : A) : M A := fun w => (Ok a, w).

Definition raise {A} (e : exn) : M A := fun w => (Raise e, w).

Definition bind {A B} (m : M A) (k : A -> M B) : M B :=
  fun w =>
    match m w with
    | (Ok a, w') => k a w'
    | (Raise e, w') => (Raise e, w')
    end.

Notation "x <- m ;; k" := (bind m (fun x => k))
  (at level 61, m at next level, right associativity).

Definition lift {A} (r : Result A) : M A := fun w => (r, w).

(** A call to a collaborator is recorded, then answers or raises. *)
Definition call {A} (e : Event) (answer : Result A) : M A :=
  fun w => (answer, mkWorld (calls w ++ [e]) (files w)).

Fixpoint mapM {A B} (f : A -> M B) (l : list A) : M (list B) :=
  match l with
  | [] => ret []
  | a :: r => b <- f a ;; bs <- mapM f r ;; ret (b :: bs)
  end.

(** Running [f] on every element of a batch, each to its end, also after
    one of them has raised; the batch raises the error of the first in the
    list that failed. *)
Fixpoint gather {A B} (f : A -> M B) (l : list A) : M (list B) :=
  match l with
  | [] => ret []
  | a :: r =>
      fun w =>
        let (rb, w1) := f a w in
        let (rbs, w2) := gather f r w1 in
        (match rb, rbs with
         | Ok b, Ok bs => Ok (b :: bs)
         | Raise e, _ => Raise e
         | Ok _, Raise e => Raise e
         end, w2)
  end.

Definition upd_evidence (ev : list EvidenceItem) : Update :=
  mkUpdate None None None (Some ev) None None None None.

Definition upd_plan (p : Plan) : Update :=
  mkUpdate None None None None (Some p) None None None.

Definition upd_sections (s : list (Z * str)) : Update :=
  mkUpdate None None None None None None (Some s) None.

Definition upd_final (f : str) : Update :=
  mkUpdate None None None None None None None (Some f).

(** ** utils/__init__.py *)

Definition normalize_record (r : RawRecord) : Normalized :=
  mkNormalized (or_empty (r_title r))
               (or_empty (r_url r))
               (or_empty (or_opt (r_content r) (r_snippet r)))
               (or_opt (r_published_date r) (r_published_at r))
               (r_source r).

(** The list a tool answer is iterated as: the ["results"] entry of a dict
    ([[]] when absent), or the bare list. *)
Definition response_results (t : ToolResponse) : list RawItem :=
  match t with
  | RespDict (Some l) => l
  | RespDict None => []
  | RespList l => l
  end.

Definition normalize_results (l : list RawItem) : list Normalized :=
  flat_map (fun r => match r with
                     | NotADict => []
                     | ADict r => [normalize_record r]
                     end) l.

Definition NUL : char := 0%N.

(** The code points no text encoding writes: the surrogates. *)
Definition is_surrogate (c : char) : bool :=
  ((55296 <=? c) && (c <=? 57343))%N.

Section Stages.

Variable svc : Services.

(** [date.fromisoformat(s)] *)
Definition date_fromisoformat (s : str) : Result date :=
  match date_reads svc s with
  | Some d => Ok d
  | None => Raise ValueError
  end.

(** [iso_to_date]: [None] for an empty or missing string and for one whose
    first ten characters are not a date. *)
Definition iso_to_date (s : option str) : option date :=
  match s with
  | None => None
  | Some s =>
      if negb (truthy s) then None
      else match date_fromisoformat (firstn 10 s) with
           | Ok d => Some d
           | Raise _ => None
           end
  end.

(** [Path(filename).write_text(content, encoding="utf-8")]. A name with a
    NUL character is refused with [ValueError] before the file system is
    asked. Opening the file creates it or empties it; a text with a
    surrogate then fails to encode, and the file stays empty. Otherwise the
    text is written, or what the file system left of it. The attempt is
    recorded in every case. *)
Definition write_text (filename content : str) : M unit :=
  fun w =>
    let log := calls w ++ [WriteText filename content] in
    if existsb (N.eqb NUL) filename then
      (Raise ValueError, mkWorld log (files w))
    else
      match fs_outcome svc filename content (files w) with
      | OpenFails e => (Raise e, mkWorld log (files w))
      | opened =>
          if existsb is_surrogate content then
            (Raise UnicodeEncodeError,
             mkWorld log (dict_set filename [] (files w)))
          else
            match opened with
            | WriteFails e remains =>
                (Raise e, mkWorld log (dict_set filename remains (files w)))
            | _ => (Ok tt, mkWorld log (dict_set filename content (files w)))
            end
      end.

(** [tavily_search]; the progress line it prints is left out. *)
Definition tavily_search (query : str) (max_results : Z) : M (list Normalized) :=
  results <- call (CallSearch query max_results)
                  (tool_invoke svc query max_results) ;;
  ret (normalize_results (response_results results)).

(** ** nodes/router.py *)

Definition recency_map : dict Z :=
  [ (lit "open_book", 7); (lit "hybrid", 45); (lit "closed_book", 3650) ].

(** What the router's prompt is made of. *)
Definition decide_request (st : State) : DecideRequest :=
  mkDecideRequest (topic st) (as_of st).

Definition router_node (st : State) : M Update :=
  let req := decide_request st in
  decision <- call (CallDecider req) (decider_invoke svc req) ;;
  let recency_days :=
    dict_get_default (mode_str (d_mode decision)) 3650 recency_map in
  ret (mkUpdate (Some (mode_str (d_mode decision)))
                (Some (d_needs_research decision))
                (Some (d_queries decision))
                None None
                (Some recency_days)
                None None).

(** ** nodes/research.py *)

(** [{e.url: e for e in evidence if e.url}] *)
Definition dedupe_by_url (ev : list EvidenceItem) : dict EvidenceItem :=
  fold_left (fun d e => if truthy (url e) then dict_set (url e) e d else d)
            ev [].

(** The test of the hard date filter: a parseable date, not before the
    cutoff. *)
Definition is_fresh (cutoff_date : date) (item : EvidenceItem) : bool :=
  match iso_to_date (published_at item) with
  | Some item_date => cutoff_date <=? item_date
  | None => false
  end.

(** What the normalization prompt is made of. *)
Definition extract_request (st : State) (raw_results : list Normalized)
  : ExtractRequest :=
  mkExtractRequest (as_of st) (recency_days st) raw_results.

Definition research_node (st : State) : M Update :=
  let queries := firstn 2 (queries st) in
  found <- mapM (fun query => tavily_search query 2) queries ;;
  let raw_results := List.concat found in
  match raw_results with
  | [] => ret (upd_evidence [])
  | _ :: _ =>
      let req := extract_request st raw_results in
      pack <- call (CallExtractor req) (extractor_invoke svc req) ;;
      let deduped := dedupe_by_url (pack_evidence pack) in
      let evidence := dict_values deduped in
      if str_eqb (mode st) (lit "open_book") then
        as_of_date <- lift (date_fromisoformat (as_of st)) ;;
        cutoff_date <- lift (date_sub_days as_of_date (recency_days st)) ;;
        ret (upd_evidence (filter (is_fresh cutoff_date) evidence))
      else
        ret (upd_evidence evidence)
  end.

(** ** nodes/orchestrator.py *)

(** What the planner's prompt is made of. *)
Definition plan_request (st : State) : PlanRequest :=
  let mode := mode st in
  let evidence := evidence st in
  let force_news_note :=
    if str_eqb mode (lit "open_book")
    then lit "Force blog_kind=news_roundup" else [] in
  mkPlanRequest (topic st) mode (as_of st) (recency_days st)
                force_news_note (firstn 16 evidence).

Definition orchestrator_node (st : State) : M Update :=
  let mode := mode st in
  let req := plan_request st in
  plan <- call (CallPlanner req) (planner_invoke svc req) ;;
  let plan :=
    if str_eqb mode (lit "open_book")
    then set_blog_kind news_roundup plan else plan in
  ret (upd_plan plan).

(** ** graph/fanout.py *)

Inductive Node :=
| START | router | research | orchestrator | worker | reducer | END.

(** [model_dump] turns a model into a dict of its fields: the same value
    in a fresh object. *)
Definition model_dump {A : Type} (x : A) : A := x.

(** The payload of one worker: its own task and copies of the shared
    context. *)
Record Payload := mkPayload {
  p_task : Task;
  p_topic : str;
  p_mode : str;
  p_as_of : str;
  p_recency_days : Z;
  p_plan : Plan;
  p_evidence : list EvidenceItem
}.

Record Send := mkSend {
  send_node : Node;
  send_arg : Payload
}.

Definition fanout (st : State) : Result (list Send) :=
  match plan st with
  | None => Raise AssertionError
  | Some plan =>
      Ok (map (fun task =>
                 mkSend worker
                        (mkPayload (model_dump task) (topic st) (mode st)
                                   (as_of st) (recency_days st)
                                   (model_dump plan)
                                   (map model_dump (evidence st))))
              (tasks plan))
  end.

(** ** nodes/worker.py *)

Definition evidence_line (e : EvidenceItem) : str :=
  lit "- " ++ ev_title e ++ lit " | " ++ url e ++ lit " | "
  ++ (if otruthy (published_at e)
      then or_empty (published_at e) else lit "date:unknown").

Definition worker_node (payload : Payload) : M Update :=
  let task := p_task payload in
  let plan := p_plan payload in
  let evidence := p_evidence payload in
  let bullets_text := [LF] ++ lit "- " ++ join ([LF] ++ lit "- ") (bullets task) in
  let evidence_text :=
    match evidence with
    | [] => []
    | _ :: _ => join [LF] (map evidence_line (firstn 20 evidence))
    end in
  let req := mkWriteRequest plan (p_topic payload) (p_mode payload)
                            (p_as_of payload) (p_recency_days payload)
                            task bullets_text evidence_text in
  content <- call (CallLlm req) (llm_invoke svc req) ;;
  let section_md := strip content in
  ret (upd_sections [(task_id task, section_md)]).

(** ** nodes/reducer.py *)

Definition ordered_sections (sections : list (Z * str)) : list str :=
  map snd (sorted fst sections).

Definition reducer_body (sections : list (Z * str)) : str :=
  strip (join [LF; LF] (ordered_sections sections)).

Definition reducer_final_md (plan : Plan) (sections : list (Z * str)) : str :=
  lit "# " ++ blog_title plan ++ [LF; LF] ++ reducer_body sections ++ [LF].

(** The character class of the pattern: backslash, slash, colon, star,
    question mark, double quote, angle brackets and bar. *)
Definition UNSAFE : list char := lit "\/:*?" ++ [DQUOTE] ++ lit "<>|".

Definition is_unsafe (c : char) : bool := existsb (N.eqb c) UNSAFE.

Definition UNDERSCORE : char := 95%N.

(** [re.sub(r'[...]', '_', s)] with the class above *)
Definition re_sub_unsafe (s : str) : str :=
  map (fun c => if is_unsafe c then UNDERSCORE else c) s.

(** The name the document is saved under. The source first assigns the
    lower-cased title and its first 40 characters to [filename]; the third
    assignment starts again from [plan.blog_title] and is the one in
    effect. *)
Definition reducer_filename (plan : Plan) : str :=
  re_sub_unsafe (blog_title plan) ++ lit ".md".

Definition reducer_node (st : State) : M Update :=
  match plan st with
  | None => raise ValueError
  | Some plan =>
      let final_md := reducer_final_md plan (sections st) in
      let filename := reducer_filename plan in
      _ <- write_text filename final_md ;;
      ret (upd_final final_md)
  end.

(** ** graph/builder.py *)

Definition route_next (st : State) : Node :=
  if needs_research st then research else orchestrator.

Definition Node_eqb (a b : Node) : bool :=
  match a, b with
  | START, START | router, router | research, research
  | orchestrator, orchestrator | worker, worker | reducer, reducer
  | END, END => true
  | _, _ => false
  end.

(** The nodes registered with [add_node] that take the shared state. The
    worker is registered too; it takes the payload of a [Send]. *)
Definition node_function (n : Node) : option (State -> M Update) :=
  match n with
  | router => Some router_node
  | research => Some research_node
  | orchestrator => Some orchestrator_node
  | reducer => Some reducer_node
  | _ => None
  end.

(** The edges added with [add_edge]. *)
Definition fixed_edges : list (Node * Node) :=
  [ (START, router); (research, orchestrator); (reducer, END);
    (worker, reducer) ].

Definition fixed_edge (n : Node) : option Node :=
  option_map snd (find (fun e => Node_eqb (fst e) n) fixed_edges).

(** Where control goes after a node: on to one node, out to a batch of
    parallel workers, or nowhere. *)
Inductive Next :=
| Goto (n : Node)
| Spawn (sends : list Send)
| Halt.

(** The edges added with [add_conditional_edges]. *)
Definition conditional_edge (n : Node) : option (State -> Result Next) :=
  match n with
  | router => Some (fun st => Ok (Goto (route_next st)))
  | orchestrator =>
      Some (fun st => match fanout st with
                      | Ok sends => Ok (Spawn sends)
                      | Raise e => Raise e
                      end)
  | _ => None
  end.

Definition next_of (n : Node) (st : State) : Result Next :=
  match conditional_edge n with
  | Some f => f st
  | None =>
      match fixed_edge n with
      | Some m => Ok (Goto m)
      | None => Ok Halt
      end
  end.

(** Running a node merges what it returns into the state. *)
Definition run_node (n : Node) (st : State) : M State :=
  match node_function n with
  | Some f => u <- f st ;; ret (apply_update u st)
  | None => ret st
  end.

(** The compiled graph, from node [n] on, for at most [steps] nodes in a
    row. Every worker of a batch is started and runs to its end, each on
    its own payload; when all have returned, their returns are merged into
    the state, and only then does control follow the workers' edge. When
    one has raised, the run raises. With no worker sent nothing follows. *)
Fixpoint run (steps : nat) (n : Node) (st : State) : M State :=
  match steps with
  | O => raise GraphRecursionError
  | S k =>
      match n with
      | END => ret st
      | _ =>
          st' <- run_node n st ;;
          nx <- lift (next_of n st') ;;
          match nx with
          | Goto m => run k m st'
          | Halt => ret st'
          | Spawn [] => ret st'
          | Spawn sends =>
              us <- gather (fun s => worker_node (send_arg s)) sends ;;
              let st'' := fold_left (fun s u => apply_update u s) us st' in
              match fixed_edge worker with
              | Some m => run k m st''
              | None => ret st''
              end
          end
      end
  end.

(** [app.invoke(state)] under the default recursion limit. *)
Definition invoke (st : State) : M State := run 25 START st.

End Stages.

(** ** Notions used in the statements *)

Definition world0 : World := mkWorld [] [].

(** The last item of [ev] whose url is [u]. *)
Definition last_with_url (u : str) (ev : list EvidenceItem) : option EvidenceItem :=
  find (fun e => str_eqb (url e) u) (rev ev).


(** The fixed table of recency windows. *)
Definition recency_of (m : Mode) : Z :=
  match m with
  | open_book => 7
  | hybrid => 45
  | closed_book => 3650
  end.

(** ** Sample runs *)

Module Sample.

Local Open Scope string_scope.

Definition task (id : Z) (title : string) : Task :=
  mkTask id (lit title) (lit "goal") [lit "b1"; lit "b2"; lit "b3"] 200 []
         false false false.

Definition plan3 : Plan :=
  mkPlan (lit "Why: a/b?") (lit "developers") (lit "plain") explainer []
         [task 1 "Intro"; task 2 "Core"; task 3 "End"].

Definition plan2 : Plan :=
  mkPlan (lit "T") (lit "developers") (lit "plain") tutorial []
         [task 1 "Intro"; task 2 "Core"].

Definition state_with (m : string) (p : option Plan)
                      (secs : list (Z * str)) : State :=
  mkState (lit "topic") (lit m) true [lit "q one"; lit "q two"; lit "q three"]
          [] p (lit "2026-02-19") 7 secs [].

(** Worker outputs in arrival order, and in outline order. *)
Definition arrived : list (Z * str) :=
  [(3, lit "c"); (1, lit "a"); (2, lit "b")].

Definition outline_order : list (Z * str) :=
  [(1, lit "a"); (2, lit "b"); (3, lit "c")].

(** The first section came back empty. *)
Definition first_empty : list (Z * str) := [(1, []); (2, lit "a")].

(** The worker of section 2 never contributed. *)
Definition one_missing : list (Z * str) := [(3, lit "c"); (1, lit "a")].

Definition item (title url : string) (published : option string)
  : EvidenceItem :=
  mkEvidenceItem (lit title) (lit url) (option_map lit published) None None.

Definition dup_items : list EvidenceItem :=
  [item "X" "a" None; item "Y" "a" None; item "Z" "b" None].

Definition dated_items : list EvidenceItem :=
  [ item "new" "u1" (Some "2026-02-18");
    item "old" "u2" (Some "2026-02-10");
    item "undated" "u3" None ].

Definition hit : RawItem :=
  ADict (mkRawRecord (Some (lit "t")) (Some (lit "u1")) (Some (lit "s"))
                     None None None None).

Definition decision (m : Mode) : RouterDecision :=
  mkRouterDecision true m (lit "because") [lit "q one"] 5.

(** Collaborators: the search finds [found] for every query, the
    classifier picks mode [m], the normalizer returns [items], the planner
    proposes [plan2], the writer answers with the section's title. Dates
    are read in the form [YYYY-MM-DD]; the file system refuses a name of
    more than 255 characters with error 36 (name too long). *)
Definition services (found : list RawItem) (m : Mode)
                    (items : list EvidenceItem) : Services :=
  mkServices (fun _ => Ok (decision m))
             (fun _ _ => Ok (RespDict (Some found)))
             (fun _ => Ok (mkEvidencePack items))
             (fun _ => Ok plan2)
             (fun r => Ok (task_title (wr_task r)))
             read_yyyy_mm_dd
             (fun name _ _ =>
                if (255 <? List.length name)%nat
                then OpenFails (OSError 36) else Written).

End Sample.

(** ** app.py: the helpers around a saved document *)

Definition CR : char := 13%N.

(** The line boundaries of [str.splitlines]. *)
Definition is_linebreak (c : char) : bool :=
  ((10 <=? c) && (c <=? 13) || (28 <=? c) && (c <=? 30)
   || (c =? 133) || (c =? 8232) || (c =? 8233))%N.

(** [s.splitlines()], with the characters of the line being read kept in
    [acc], last first. A carriage return followed by a line feed is one
    boundary; no empty line follows a final boundary. *)
Fixpoint splitlines_acc (acc : str) (s : str) : list str :=
  match s with
  | [] => match acc with [] => [] | _ :: _ => [rev acc] end
  | c :: r =>
      if is_linebreak c then
        rev acc ::
        match r with
        | c' :: r' =>
            if ((c =? CR) && (c' =? LF))%N
            then splitlines_acc [] r' else splitlines_acc [] r
        | [] => splitlines_acc [] r
        end
      else splitlines_acc (c :: acc) r
  end.

Definition splitlines (s : str) : list str := splitlines_acc [] s.

(** [s.startswith(prefix)] *)
Fixpoint startswith (prefix s : str) : bool :=
  match prefix, s with
  | [], _ => true
  | p :: ps, c :: cs => N.eqb p c && startswith ps cs
  | _ :: _, [] => false
  end.

Definition extract_title_from_md (md fallback : str) : str :=
  match find (startswith (lit "# ")) (splitlines md) with
  | Some line =>
      let t := strip (skipn 2 line) in
      if truthy t then t else fallback
  | None => fallback
  end.

(** [s.strip(chars)] *)
Fixpoint lstrip_chars (chars : list char) (s : str) : str :=
  match s with
  | [] => []
  | c :: r => if existsb (N.eqb c) chars then lstrip_chars chars r else s
  end.

Definition strip_chars (chars : list char) (s : str) : str :=
  rev (lstrip_chars chars (rev (lstrip_chars chars s))).

(** The class [[a-z0-9 _-]]. *)
Definition is_slug_char (c : char) : bool :=
  ((97 <=? c) && (c <=? 122) || (48 <=? c) && (c <=? 57)
   || (c =? 32) || (c =? 95) || (c =? 45))%N.

(** [re.sub(r"\s+", "_", s)]: every maximal run of whitespace becomes one
    underscore; [in_run] tells that the run at hand is already replaced. *)
Fixpoint sub_spaces (in_run : bool) (s : str) : str :=
  match s with
  | [] => []
  | c :: r =>
      if isspace c
      then (if in_run then sub_spaces true r
            else UNDERSCORE :: sub_spaces true r)
      else c :: sub_spaces false r
  end.

Section Slug.

(** [str.lower], which follows the Unicode case tables. *)
Variable str_lower : str -> str.

Definition safe_slug (title : str) : str :=
  let s := str_lower (strip title) in
  let s := filter is_slug_char s in
  let s := strip_chars [UNDERSCORE] (sub_spaces false s) in
  if truthy s then s else lit "blog".

End Slug.

(** Lower-casing of the letters A to Z, other characters kept: what
    [str.lower] does on ASCII text. *)
Definition ascii_lower (s : str) : str :=
  map (fun c => if ((65 <=? c) && (c <=? 90))%N then (c + 32)%N else c) s.

(** ** Further notions used in the statements *)

(** What the writer's prompt is made of ([worker_node]). *)
Definition write_request (payload : Payload) : WriteRequest :=
  let task := p_task payload in
  let evidence := p_evidence payload in
  mkWriteRequest (p_plan payload) (p_topic payload) (p_mode payload)
                 (p_as_of payload) (p_recency_days payload) task
                 ([LF] ++ lit "- " ++ join ([LF] ++ lit "- ") (bullets task))
                 (match evidence with
                  | [] => []
                  | _ :: _ => join [LF] (map evidence_line (firstn 20 evidence))
                  end).

(** Calls to the search tool or to the normalizer. *)
Definition is_research_call (e : Event) : bool :=
  match e with
  | CallSearch _ _ | CallExtractor _ => true
  | _ => false
  end.

(** A computation that leaves no call to search or normalizer in the
    log. *)
Definition no_research_calls {A : Type} (m : M A) : Prop :=
  forall w,
    filter is_research_call (calls (snd (m w)))
    = filter is_research_call (calls w).

(** The first character is there and is not whitespace. *)
Definition starts_clean (s : str) : bool :=
  match s with
  | [] => false
  | c :: _ => negb (isspace c)
  end.

Definition ends_clean (s : str) : bool := starts_clean (rev s).

(** The longest chain of nodes that can still follow, a node counted
    in. *)
Definition nodes_ahead (n : Node) : nat :=
  match n with
  | END => 1
  | reducer => 2
  | worker => 3
  | orchestrator => 4
  | research => 5
  | router => 6
  | START => 7
  end.

(** Every node an edge out of [n] can lead to, at state [st]: the target of
    a plain edge, the targets of the units sent out. *)
Definition edge_targets (n : Node) (st : State) : list Node :=
  match next_of n st with
  | Ok (Goto m) => [m]
  | Ok (Spawn sends) => map send_node sends
  | _ => []
  end.


(** The write of [content] under [filename] goes through. *)
Definition write_succeeds (svc : Services) (filename content : str)
                          (files : dict str) : Prop :=
  existsb (N.eqb NUL) filename = false /\
  existsb is_surrogate content = false /\
  fs_outcome svc filename content files = Written.

(** The title with the unsafe characters taken out, as the specification
    words the file name. *)
Definition strip_out_unsafe (s : str) : str :=
  filter (fun c => negb (is_unsafe c)) s.

Definition is_dict_item (r : RawItem) : bool :=
  match r with ADict _ => true | NotADict => false end.

(** [st'] is [st] after some nodes have run: same topic and as-of date,
    and the sections of [st] with more appended. *)
Definition grows_from (st st' : State) : Prop :=
  topic st' = topic st /\
  as_of st' = as_of st /\
  exists extra, sections st' = sections st ++ extra.


(** main.py, [run]: the file name its summary shows after [SAVED AS]. *)
Definition summary_saved_as (p : Plan) : str := blog_title p ++ lit ".md".

Module SampleApp.

Local Open Scope string_scope.

Definition title_plan (title : string) : Plan :=
  mkPlan (lit title) (lit "developers") (lit "plain") explainer []
         [Sample.task 1 "Intro"; Sample.task 2 "Core"].


(** Collaborators whose search tool raises. *)
Definition search_down : Services :=
  mkServices (fun _ => Ok (Sample.decision hybrid))
             (fun _ _ => Raise (ExternalError 503))
             (fun _ => Ok (mkEvidencePack Sample.dated_items))
             (fun _ => Ok Sample.plan2)
             (fun r => Ok (task_title (wr_task r)))
             read_yyyy_mm_dd
             (fun _ _ _ => Written).

(** Collaborators whose classifier asks for no research. *)
Definition no_research : Services :=
  mkServices (fun _ => Ok (mkRouterDecision false closed_book (lit "evergreen")
                                            [] 5))
             (fun _ _ => Ok (RespDict (Some [Sample.hit])))
             (fun _ => Ok (mkEvidencePack Sample.dated_items))
             (fun _ => Ok Sample.plan2)
             (fun r => Ok (List.app (32%N :: task_title (wr_task r)) [LF]))
             read_yyyy_mm_dd
             (fun _ _ _ => Written).

(** A plan whose title has 300 characters. *)
Definition long_title_plan : Plan :=
  mkPlan (repeat 97%N 300) (lit "developers") (lit "plain") explainer []
         [Sample.task 1 "Intro"; Sample.task 2 "Core"].

Definition payload1 : Payload :=
  mkPayload (Sample.task 1 "Intro") (lit "topic") (lit "hybrid")
            (lit "2026-02-19") 45 Sample.plan2 [].

End SampleApp.

(** * Properties *)

(** ** Strings and dicts *)

Lemma str_eqb_eq (a b : str) : str_eqb a b = true <-> a = b.
Proof.
  revert b; induction a as [|x a IH]; intros [|y b]; simpl;
    try (split; [discriminate | discriminate]); try tauto.
  rewrite andb_true_iff, N.eqb_eq, IH.
  split; [intros [-> ->]; reflexivity | intros H; inversion H; auto].
Qed.

Lemma str_eqb_refl (a : str) : str_eqb a a = true.
Proof. apply str_eqb_eq; reflexivity. Qed.

Lemma str_eqb_neq (a b : str) : str_eqb a b = false <-> a <> b.
Proof.
  rewrite <- str_eqb_eq. destruct (str_eqb a b); split; congruence.
Qed.

Lemma dict_get_set_same {V} (k : str) (v : V) (d : dict V) :
  dict_get k (dict_set k v d) = Some v.
Proof.
  induction d as [|[k' v'] d IH]; simpl.
  - now rewrite str_eqb_refl.
  - destruct (str_eqb k' k) eqn:E; simpl; rewrite E; auto.
Qed.

Lemma dict_get_set_other {V} (k k0 : str) (v : V) (d : dict V) :
  k0 <> k -> dict_get k0 (dict_set k v d) = dict_get k0 d.
Proof.
  intros Hne. induction d as [|[k' v'] d IH]; simpl.
  - assert (str_eqb k k0 = false) as -> by (apply str_eqb_neq; congruence).
    reflexivity.
  - destruct (str_eqb k' k) eqn:E; simpl.
    + apply str_eqb_eq in E; subst k'.
      assert (str_eqb k k0 = false) as -> by (apply str_eqb_neq; congruence).
      reflexivity.
    + destruct (str_eqb k' k0); auto.
Qed.

Lemma dict_set_keys_in {V} (k : str) (v : V) (d : dict V) :
  In k (map fst d) -> map fst (dict_set k v d) = map fst d.
Proof.
  induction d as [|[k' v'] d IH]; simpl; [tauto|].
  intros H. destruct (str_eqb k' k) eqn:E; simpl; [reflexivity|].
  f_equal. apply IH. destruct H as [H|H]; [|exact H].
  apply str_eqb_neq in E. congruence.
Qed.

Lemma dict_set_keys_new {V} (k : str) (v : V) (d : dict V) :
  ~ In k (map fst d) -> map fst (dict_set k v d) = map fst d ++ [k].
Proof.
  induction d as [|[k' v'] d IH]; simpl; [reflexivity|].
  intros H. destruct (str_eqb k' k) eqn:E; simpl.
  - apply str_eqb_eq in E. tauto.
  - f_equal. apply IH. tauto.
Qed.

Lemma dict_set_nodup {V} (k : str) (v : V) (d : dict V) :
  NoDup (map fst d) -> NoDup (map fst (dict_set k v d)).
Proof.
  intros Hnd.
  destruct (in_dec (list_eq_dec N.eq_dec) k (map fst d)) as [Hin|Hout].
  - now rewrite dict_set_keys_in.
  - rewrite dict_set_keys_new by assumption.
    apply NoDup_rev in Hnd. rewrite <- (rev_involutive (_ ++ _)).
    apply NoDup_rev. rewrite rev_app_distr. simpl.
    constructor; [rewrite <- in_rev; exact Hout | exact Hnd].
Qed.

(** With distinct keys, membership and lookup agree. *)
Lemma dict_in_get {V} (k : str) (v : V) (d : dict V) :
  NoDup (map fst d) -> (In (k, v) d <-> dict_get k d = Some v).
Proof.
  induction d as [|[k' v'] d IH]; simpl; intros Hnd.
  - split; [tauto | discriminate].
  - inversion Hnd as [|? ? Hout Hnd']; subst.
    destruct (str_eqb k' k) eqn:E.
    + apply str_eqb_eq in E; subst k'. split.
      * intros [H|H]; [congruence|].
        exfalso; apply Hout. apply (in_map fst) in H. exact H.
      * intros H; left; congruence.
    + apply str_eqb_neq in E. rewrite <- (IH Hnd'). split.
      * intros [H|H]; [congruence | exact H].
      * auto.
Qed.

(** ** The stable sort *)

Section SortedFacts.
Context {A : Type}.
Variable key : A -> Z.

Lemma insert_by_perm (x : A) (l : list A) :
  Permutation (insert_by key x l) (x :: l).
Proof.
  induction l as [|y l IH]; simpl; [reflexivity|].
  destruct (key x <=? key y); [reflexivity|].
  rewrite IH. apply perm_swap.
Qed.

Lemma sorted_perm (l : list A) : Permutation (sorted key l) l.
Proof.
  induction l as [|x l IH]; simpl; [reflexivity|].
  rewrite insert_by_perm. now constructor.
Qed.

Lemma insert_by_sorted (x : A) (l : list A) :
  StronglySorted (fun a b => key a <= key b) l ->
  StronglySorted (fun a b => key a <= key b) (insert_by key x l).
Proof.
  induction 1 as [|y l Hs IH Hall]; simpl.
  - repeat constructor.
  - destruct (key x <=? key y) eqn:E.
    + apply Z.leb_le in E. constructor; [constructor; assumption|].
      constructor; [exact E|].
      rewrite Forall_forall in *. intros z Hz. specialize (Hall z Hz). lia.
    + apply Z.leb_gt in E. constructor; [exact IH|].
      rewrite Forall_forall in *. intros z Hz.
      apply (Permutation_in _ (insert_by_perm x l)) in Hz.
      destruct Hz as [<-|Hz]; [lia | auto].
Qed.

Lemma sorted_sorted (l : list A) :
  StronglySorted (fun a b => key a <= key b) (sorted key l).
Proof.
  induction l as [|x l IH]; simpl; [constructor|].
  now apply insert_by_sorted.
Qed.

(** Insertions of two elements with different keys commute. *)
Lemma insert_by_comm (x y : A) (l : list A) :
  key x <> key y ->
  insert_by key x (insert_by key y l) = insert_by key y (insert_by key x l).
Proof.
  intros Hne. induction l as [|z l IH]; simpl.
  - destruct (key x <=? key y) eqn:E1, (key y <=? key x) eqn:E2;
      try reflexivity; rewrite ?Z.leb_le, ?Z.leb_gt in *; lia.
  - destruct (key y <=? key z) eqn:Ey, (key x <=? key z) eqn:Ex; simpl;
      rewrite ?Ey, ?Ex;
      destruct (key x <=? key y) eqn:E1, (key y <=? key x) eqn:E2;
      try reflexivity; try (rewrite IH; reflexivity);
      rewrite ?Z.leb_le, ?Z.leb_gt in *; lia.
Qed.

(** With distinct keys the result does not depend on the order of the
    input. *)
Lemma sorted_order_independent (l l' : list A) :
  Permutation l l' -> NoDup (map key l) -> sorted key l = sorted key l'.
Proof.
  induction 1 as [|x l l' HP IH|x y l|l l' l'' HP1 IH1 HP2 IH2];
    simpl; intros Hnd.
  - reflexivity.
  - inversion Hnd; subst. f_equal. auto.
  - inversion Hnd as [|? ? Hout Hnd']; subst.
    apply insert_by_comm. intros Heq. apply Hout. simpl. left. auto.
  - rewrite IH1 by assumption. apply IH2.
    apply (Permutation_NoDup (Permutation_map key HP1)). assumption.
Qed.

(** With distinct keys the order is strict. *)
Lemma sorted_strict (l : list A) :
  NoDup (map key l) ->
  StronglySorted (fun a b => key a < key b) (sorted key l).
Proof.
  intros Hnd.
  assert (Hnd' : NoDup (map key (sorted key l))).
  { apply (Permutation_NoDup (l := map key l)); [|assumption].
    apply Permutation_map. symmetry. apply sorted_perm. }
  pose proof (sorted_sorted l) as Hs.
  induction Hs as [|y r Hs IH Hall]; [constructor|].
  simpl in Hnd'. inversion Hnd' as [|? ? Hout Hr]; subst.
  constructor; [auto|].
  rewrite Forall_forall in *. intros z Hz.
  specialize (Hall z Hz).
  assert (key y <> key z).
  { intros Heq. apply Hout. rewrite Heq. now apply in_map. }
  lia.
Qed.
End SortedFacts.

(** ** A whole run *)

(** From the initial state, with a search that finds one result and a
    classifier that picks open_book: the run ends with the document of the
    two planned sections, saved as [T.md]. *)
Example invoke_sample_run :
  let svc := Sample.services [Sample.hit] open_book Sample.dated_items in
  exists st w,
    invoke svc (_initial_state (lit "x") (lit "2026-02-19")) world0
    = (Ok st, w) /\
    final st = lit "# T" ++ [LF; LF] ++ lit "Intro" ++ [LF; LF]
               ++ lit "Core" ++ [LF] /\
    option_map blog_kind (plan st) = Some news_roundup /\
    recency_days st = 7 /\
    dict_get (lit "T.md") (files w) = Some (final st).
Proof.
  intros svc. do 2 eexists. split; [vm_compute; reflexivity|].
  repeat split.
Qed.

(** ** The reducer *)

(** A write that goes through stores the text under the name. *)
Lemma write_text_ok (svc : Services) (filename content : str) (w : World) :
  write_succeeds svc filename content (files w) ->
  write_text svc filename content w
  = (Ok tt, mkWorld (calls w ++ [WriteText filename content])
                    (dict_set filename content (files w))).
Proof.
  intros [Hnul [Hsur Hout]]. unfold write_text.
  rewrite Hnul, Hout, Hsur. reflexivity.
Qed.

(** A write returns only when it went through. *)
Lemma write_text_returns (svc : Services) (filename content : str) (w : World) :
  fst (write_text svc filename content w) = Ok tt ->
  write_succeeds svc filename content (files w).
Proof.
  unfold write_text, write_succeeds.
  destruct (existsb (N.eqb NUL) filename); [discriminate|].
  destruct (fs_outcome svc filename content (files w)) as [|e|e remains];
    destruct (existsb is_surrogate content); simpl;
    try discriminate; auto.
Qed.

Lemma write_text_log (svc : Services) (filename content : str) (w : World) :
  calls (snd (write_text svc filename content w))
  = calls w ++ [WriteText filename content].
Proof.
  unfold write_text.
  destruct (existsb (N.eqb NUL) filename); [reflexivity|].
  destruct (fs_outcome svc filename content (files w));
    destruct (existsb is_surrogate content); reflexivity.
Qed.

(** On a state that has a plan the reducer assembles the document, writes
    it, and returns it when the write returned. *)
Lemma reducer_node_unfold (svc : Services) (st : State) (p : Plan) (w : World) :
  plan st = Some p ->
  reducer_node svc st w
  = match write_text svc (reducer_filename p)
                     (reducer_final_md p (sections st)) w with
    | (Ok _, w') => (Ok (upd_final (reducer_final_md p (sections st))), w')
    | (Raise e, w') => (Raise e, w')
    end.
Proof.
  intros Hp. unfold reducer_node. rewrite Hp. unfold bind, ret.
  destruct (write_text svc _ _ w) as [[[]|e] w']; reflexivity.
Qed.

(** What the reducer does when the write goes through. *)
Lemma reducer_node_ok (svc : Services) (st : State) (p : Plan) (w : World) :
  plan st = Some p ->
  write_succeeds svc (reducer_filename p) (reducer_final_md p (sections st))
                 (files w) ->
  reducer_node svc st w =
    (Ok (upd_final (reducer_final_md p (sections st))),
     mkWorld (calls w ++ [WriteText (reducer_filename p)
                                    (reducer_final_md p (sections st))])
             (dict_set (reducer_filename p)
                       (reducer_final_md p (sections st)) (files w))).
Proof.
  intros Hp Hw. rewrite (reducer_node_unfold svc st p w Hp).
  now rewrite (write_text_ok svc _ _ w Hw).
Qed.

(** Whatever the reducer returns is the document; whatever it raises is
    the error of the write. *)
Lemma reducer_node_outcome (svc : Services) (st : State) (p : Plan) (w : World) :
  plan st = Some p ->
  (forall u, fst (reducer_node svc st w) = Ok u ->
             u = upd_final (reducer_final_md p (sections st))) /\
  (forall e, fst (reducer_node svc st w) = Raise e ->
             fst (write_text svc (reducer_filename p)
                             (reducer_final_md p (sections st)) w)
             = Raise e) /\
  calls (snd (reducer_node svc st w))
  = calls w ++ [WriteText (reducer_filename p)
                          (reducer_final_md p (sections st))].
Proof.
  intros Hp. rewrite (reducer_node_unfold svc st p w Hp).
  pose proof (write_text_log svc (reducer_filename p)
                             (reducer_final_md p (sections st)) w) as Hlog.
  destruct (write_text svc _ _ w) as [[[]|e] w']; simpl in *;
    repeat split; try exact Hlog; intros x Hx; inversion Hx; reflexivity.
Qed.

(** A name of more than 255 characters is not written by the sample file
    system. *)
Lemma long_title_not_written (sections : list (Z * str)) :
  reducer_node (Sample.services [] hybrid [])
               (Sample.state_with "hybrid" (Some SampleApp.long_title_plan)
                                  sections) world0
  = (Raise (OSError 36),
     mkWorld [WriteText (reducer_filename SampleApp.long_title_plan)
                        (reducer_final_md SampleApp.long_title_plan sections)]
             []).
Proof.
  rewrite (reducer_node_unfold
             (Sample.services [] hybrid [])
             (Sample.state_with "hybrid" (Some SampleApp.long_title_plan)
                                sections)
             SampleApp.long_title_plan world0 eq_refl).
  reflexivity.
Qed.

Lemma is_unsafe_spec (c : char) :
  is_unsafe c = true <->
  In c [92; 47; 58; 42; 63; 34; 60; 62; 124]%N.
Proof.
  unfold is_unsafe. rewrite existsb_exists. split.
  - intros [x [Hin Heq]]. apply N.eqb_eq in Heq. subst x. exact Hin.
  - intros Hin. exists c. split; [exact Hin | apply N.eqb_refl].
Qed.

Lemma re_sub_unsafe_safe (s : str) (c : char) :
  In c (re_sub_unsafe s) -> is_unsafe c = false.
Proof.
  unfold re_sub_unsafe. rewrite in_map_iff. intros [x [Hx _]].
  destruct (is_unsafe x) eqn:E; subst c; [reflexivity | exact E].
Qed.

(** C1 with the body read as the plain join fails at
    [Sample.first_empty], where the section of task 1 is empty: the joined
    contents start with the separator and the reducer's body does not. *)
Lemma reducer_body_is_stripped_counterexample :
  NoDup (map task_id (tasks Sample.plan2)) /\
  map fst Sample.first_empty = map task_id (tasks Sample.plan2) /\
  join [LF; LF] (map snd (sorted fst Sample.first_empty)) = [LF; LF] ++ lit "a" /\
  reducer_body Sample.first_empty = lit "a" /\
  reducer_body Sample.first_empty
    <> join [LF; LF] (map snd (sorted fst Sample.first_empty)) /\
  fst (reducer_node (Sample.services [] hybrid [])
                    (Sample.state_with "hybrid" (Some Sample.plan2)
                                       Sample.first_empty) world0)
    = Ok (upd_final (lit "# T" ++ [LF; LF] ++ lit "a" ++ [LF])) /\
  fst (reducer_node (Sample.services [] hybrid [])
                    (Sample.state_with "hybrid" (Some Sample.plan2)
                                       Sample.first_empty) world0)
    <> Ok (upd_final
             (lit "# " ++ blog_title Sample.plan2 ++ [LF; LF]
              ++ join [LF; LF] (map snd (sorted fst Sample.first_empty))
              ++ [LF])).
Proof.
  repeat split; try reflexivity; try discriminate.
  repeat constructor; simpl; intuition discriminate.
Qed.

(** C1 (amended): with pairwise-distinct task ids and one pair per task,
    the reducer's outcome does not depend on the order in which the pairs
    arrived. The document is the heading ["# " + blog_title], a blank line,
    the body and a final newline, where the body is the contents in strictly
    ascending order of id joined by blank lines, with leading and trailing
    whitespace stripped from the joined text. It is this document that the
    reducer writes; it returns it as [final] when the write of the file
    goes through, returns nothing else, and raises nothing but the error of
    a failing write. *)
Theorem reducer_order_recovery
        (svc : Services) (st st' : State) (p : Plan) (w : World) :
  plan st = Some p ->
  plan st' = Some p ->
  NoDup (map task_id (tasks p)) ->
  Permutation (map fst (sections st)) (map task_id (tasks p)) ->
  Permutation (sections st') (sections st) ->
  let ordered := sorted fst (sections st) in
  let final_md :=
    lit "# " ++ blog_title p ++ [LF; LF]
    ++ strip (join [LF; LF] (map snd ordered)) ++ [LF] in
  reducer_node svc st' w = reducer_node svc st w /\
  (write_succeeds svc (reducer_filename p) final_md (files w) ->
   fst (reducer_node svc st w) = Ok (upd_final final_md)) /\
  (forall u, fst (reducer_node svc st w) = Ok u -> u = upd_final final_md) /\
  (forall e, fst (reducer_node svc st w) = Raise e ->
             fst (write_text svc (reducer_filename p) final_md w) = Raise e) /\
  calls (snd (reducer_node svc st w))
  = calls w ++ [WriteText (reducer_filename p) final_md] /\
  Permutation ordered (sections st) /\
  StronglySorted (fun a b => fst a < fst b) ordered /\
  Permutation (map fst ordered) (map task_id (tasks p)).
Proof.
  intros Hp Hp' Hnd Hids Hperm ordered final_md.
  assert (Hnd_s : NoDup (map fst (sections st))).
  { apply (Permutation_NoDup (l := map task_id (tasks p)));
      [symmetry; exact Hids | exact Hnd]. }
  assert (Hsame : sorted fst (sections st') = sorted fst (sections st)).
  { symmetry. apply sorted_order_independent; [symmetry; exact Hperm|].
    exact Hnd_s. }
  destruct (reducer_node_outcome svc st p w Hp) as [Hok [Hraise Hlog]].
  split; [|split; [|split; [|split; [|split; [|split; [|split]]]]]].
  - rewrite (reducer_node_unfold svc st' p w Hp'),
            (reducer_node_unfold svc st p w Hp).
    unfold reducer_final_md, reducer_body, ordered_sections.
    rewrite Hsame. reflexivity.
  - intros Hw. rewrite (reducer_node_ok svc st p w Hp Hw). reflexivity.
  - exact Hok.
  - exact Hraise.
  - exact Hlog.
  - apply sorted_perm.
  - apply sorted_strict. exact Hnd_s.
  - rewrite <- Hids. apply Permutation_map. apply sorted_perm.
Qed.

(** At the arrival order [(3,c); (1,a); (2,b)] the document reads
    a, blank line, b, blank line, c under its heading, as it does for the
    pairs in outline order. *)
Lemma reducer_order_recovery_witness :
  let svc := Sample.services [] hybrid [] in
  let st := Sample.state_with "hybrid" (Some Sample.plan3) Sample.arrived in
  let st' := Sample.state_with "hybrid" (Some Sample.plan3)
                               Sample.outline_order in
  reducer_node svc st' world0 = reducer_node svc st world0 /\
  fst (reducer_node svc st world0)
  = Ok (upd_final (lit "# Why: a/b?" ++ [LF; LF]
                   ++ lit "a" ++ [LF; LF] ++ lit "b" ++ [LF; LF] ++ lit "c"
                   ++ [LF])).
Proof.
  intros svc st st'.
  assert (Hnd : NoDup (map task_id (tasks Sample.plan3))).
  { repeat constructor; simpl; intuition discriminate. }
  assert (Hids : Permutation (map fst (sections st))
                             (map task_id (tasks Sample.plan3))).
  { simpl. apply perm_trans with [1; 3; 2].
    - apply perm_swap.
    - apply perm_skip, perm_swap. }
  assert (Hperm : Permutation (sections st') (sections st)).
  { simpl. unfold Sample.outline_order, Sample.arrived.
    apply perm_trans with [(1, lit "a"); (3, lit "c"); (2, lit "b")].
    - apply perm_skip, perm_swap.
    - apply perm_swap. }
  destruct (reducer_order_recovery svc st st' Sample.plan3 world0
              eq_refl eq_refl Hnd Hids Hperm) as [Heq [Hfin _]].
  split; [exact Heq|].
  apply Hfin. repeat split.
Defined.

(** C9 as worded, the reducer succeeding whenever a pair is missing, fails
    for a plan whose title has 300 characters: the pair of task 2 is
    missing, and the file system refuses the name, so the reducer raises
    and returns no document. *)
Lemma reducer_missing_section_counterexample :
  let st := Sample.state_with "hybrid" (Some SampleApp.long_title_plan)
                              [(1, lit "a")] in
  In (Sample.task 2 "Core") (tasks SampleApp.long_title_plan) /\
  ~ In 2 (map fst (sections st)) /\
  fst (reducer_node (Sample.services [] hybrid []) st world0)
  = Raise (OSError 36) /\
  files (snd (reducer_node (Sample.services [] hybrid []) st world0)) = [].
Proof.
  intros st. unfold st. rewrite long_title_not_written.
  repeat split.
  - simpl. auto.
  - simpl. intuition discriminate.
Qed.

(** C9 (amended): when the pair of some planned task is missing from the
    collected sections, the reducer raises no error on that account and
    gives no warning: the only call it makes is the write of the document
    built from the pairs that are present (in ascending order of id), and
    the only error it can raise is the one of that write. When the write
    goes through, the document is saved and returned as [final]. With
    distinct ids that all belong to planned tasks, the document has fewer
    sections than the plan has tasks. *)
Theorem reducer_missing_section_silent
        (svc : Services) (st : State) (p : Plan) (w : World) (t : Task) :
  plan st = Some p ->
  In t (tasks p) ->
  ~ In (task_id t) (map fst (sections st)) ->
  let present := ordered_sections (sections st) in
  let final_md :=
    lit "# " ++ blog_title p ++ [LF; LF]
    ++ strip (join [LF; LF] present) ++ [LF] in
  (write_succeeds svc (reducer_filename p) final_md (files w) ->
   exists w',
     reducer_node svc st w = (Ok (upd_final final_md), w') /\
     dict_get (reducer_filename p) (files w') = Some final_md) /\
  (forall u, fst (reducer_node svc st w) = Ok u -> u = upd_final final_md) /\
  (forall e, fst (reducer_node svc st w) = Raise e ->
             fst (write_text svc (reducer_filename p) final_md w) = Raise e) /\
  calls (snd (reducer_node svc st w))
  = calls w ++ [WriteText (reducer_filename p) final_md] /\
  Permutation present (map snd (sections st)) /\
  (NoDup (map fst (sections st)) ->
   incl (map fst (sections st)) (map task_id (tasks p)) ->
   (List.length present < List.length (tasks p))%nat).
Proof.
  intros Hp Ht Hmiss present final_md.
  destruct (reducer_node_outcome svc st p w Hp) as [Hok [Hraise Hlog]].
  split; [|split; [|split; [|split; [|split]]]].
  - intros Hw. eexists. split; [apply (reducer_node_ok svc st p w Hp Hw)|].
    simpl. apply dict_get_set_same.
  - exact Hok.
  - exact Hraise.
  - exact Hlog.
  - unfold present, ordered_sections. apply Permutation_map, sorted_perm.
  - intros Hnd Hincl.
    unfold present, ordered_sections. rewrite length_map.
    rewrite (Permutation_length (sorted_perm fst (sections st))).
    rewrite <- (length_map fst (sections st)).
    rewrite <- (length_map task_id (tasks p)).
    assert (H : (List.length (task_id t :: map fst (sections st))
                 <= List.length (map task_id (tasks p)))%nat).
    { apply NoDup_incl_length.
      - constructor; assumption.
      - intros x [<-|Hx]; [now apply in_map | now apply Hincl]. }
    simpl in H. lia.
Qed.

(** The worker of section 2 of three never contributed: the document holds
    sections a and c only. *)
Lemma reducer_missing_section_silent_witness :
  let st := Sample.state_with "hybrid" (Some Sample.plan3)
                              Sample.one_missing in
  exists w',
    reducer_node (Sample.services [] hybrid []) st world0
    = (Ok (upd_final (lit "# Why: a/b?" ++ [LF; LF]
                      ++ lit "a" ++ [LF; LF] ++ lit "c" ++ [LF])), w').
Proof.
  intros st.
  destruct (reducer_missing_section_silent
              (Sample.services [] hybrid []) st Sample.plan3 world0
              (Sample.task 2 "Core") eq_refl)
    as [Hrun _].
  - simpl. right. left. reflexivity.
  - simpl. intuition discriminate.
  - destruct Hrun as [w' [Hrun _]]; [repeat split|].
    exists w'. exact Hrun.
Defined.

(** C10 as worded fails twice. The unsafe characters are not taken out of
    the name: the title [a/b] is saved as [a_b.md], not as [ab.md]. And
    not every plan has its document persisted: for a title of 300
    characters the file system refuses the name and nothing is saved. *)
Lemma reducer_filename_counterexample :
  reducer_filename (SampleApp.title_plan "a/b") = lit "a_b.md" /\
  strip_out_unsafe (blog_title (SampleApp.title_plan "a/b")) ++ lit ".md"
  = lit "ab.md" /\
  reducer_filename (SampleApp.title_plan "a/b")
  <> strip_out_unsafe (blog_title (SampleApp.title_plan "a/b")) ++ lit ".md" /\
  fst (reducer_node (Sample.services [] hybrid [])
                    (Sample.state_with "hybrid"
                                       (Some SampleApp.long_title_plan)
                                       Sample.arrived) world0)
  = Raise (OSError 36) /\
  files (snd (reducer_node (Sample.services [] hybrid [])
                           (Sample.state_with "hybrid"
                                              (Some SampleApp.long_title_plan)
                                              Sample.arrived) world0))
  = [].
Proof.
  rewrite long_title_not_written.
  repeat split; try reflexivity. discriminate.
Qed.

(** C10 (amended): on a state with a plan the reducer writes the document
    under the title with each of the characters backslash, slash, colon,
    star, question mark, double quote, less-than, greater-than and bar
    replaced by an underscore, followed by [.md]; none of these characters
    occurs in the name, and every other character of the title stays where
    it was. When the write goes through, the file of that name holds the
    document, which is returned as [final]. *)
Theorem reducer_filename_safe
        (svc : Services) (st : State) (p : Plan) (w : World) :
  plan st = Some p ->
  let filename := reducer_filename p in
  let final_md := reducer_final_md p (sections st) in
  calls (snd (reducer_node svc st w))
  = calls w ++ [WriteText filename final_md] /\
  (write_succeeds svc filename final_md (files w) ->
   exists w',
     reducer_node svc st w = (Ok (upd_final final_md), w') /\
     dict_get filename (files w') = Some final_md) /\
  filename = re_sub_unsafe (blog_title p) ++ lit ".md" /\
  (forall c, In c filename ->
             ~ In c [92; 47; 58; 42; 63; 34; 60; 62; 124]%N) /\
  (forall i c, nth_error (blog_title p) i = Some c ->
               nth_error filename i
               = Some (if is_unsafe c then UNDERSCORE else c)).
Proof.
  intros Hp filename final_md.
  destruct (reducer_node_outcome svc st p w Hp) as [_ [_ Hlog]].
  split; [exact Hlog|]. split; [|split; [reflexivity|split]].
  - intros Hw. eexists. split; [apply (reducer_node_ok svc st p w Hp Hw)|].
    simpl. apply dict_get_set_same.
  - intros c Hc Hbad. apply is_unsafe_spec in Hbad.
    unfold filename, reducer_filename in Hc. apply in_app_or in Hc.
    destruct Hc as [Hc|Hc].
    + apply re_sub_unsafe_safe in Hc. congruence.
    + simpl in Hc.
      repeat (destruct Hc as [<-|Hc]; [discriminate|]). exact Hc.
  - intros i c Hi. unfold filename, reducer_filename, re_sub_unsafe.
    rewrite nth_error_app1.
    + rewrite nth_error_map, Hi. reflexivity.
    + rewrite length_map. apply nth_error_Some. congruence.
Qed.

(** The title [Why: a/b?] is saved as [Why_ a_b_.md]. *)
Lemma reducer_filename_safe_witness :
  let st := Sample.state_with "hybrid" (Some Sample.plan3) Sample.arrived in
  exists final_md w',
    reducer_node (Sample.services [] hybrid []) st world0
    = (Ok (upd_final final_md), w') /\
    dict_get (lit "Why_ a_b_.md") (files w') = Some final_md.
Proof.
  intros st.
  destruct (reducer_filename_safe (Sample.services [] hybrid []) st
                                  Sample.plan3 world0 eq_refl)
    as [_ [Hrun _]].
  destruct Hrun as [w' [Hrun Hfile]]; [repeat split|].
  eexists. exists w'. split; [exact Hrun | exact Hfile].
Defined.

(** ** Fan-out and the null-plan precondition *)

(** C3: on a state whose plan is null, [fanout] fails its assertion and
    [reducer_node] raises [ValueError] at once: it returns no update, writes
    no file and makes no call, so the world is as it was. A run that reaches
    either of them with a null plan ends with that error. *)
Theorem null_plan_fails_fast (svc : Services) (st : State) (w : World) :
  plan st = None ->
  fanout st = Raise AssertionError /\
  reducer_node svc st w = (Raise ValueError, w) /\
  next_of orchestrator st = Raise AssertionError /\
  (forall k, run svc (S k) reducer st w = (Raise ValueError, w)).
Proof.
  intros Hp.
  assert (Hf : fanout st = Raise AssertionError).
  { unfold fanout. now rewrite Hp. }
  assert (Hr : reducer_node svc st w = (Raise ValueError, w)).
  { unfold reducer_node. now rewrite Hp. }
  repeat split; auto.
  - unfold next_of. simpl. now rewrite Hf.
  - intros k. simpl. unfold run_node, bind. simpl. now rewrite Hr.
Qed.

(** On the initial state, before any plan exists. *)
Lemma null_plan_fails_fast_witness :
  let st := _initial_state (lit "topic") (lit "2026-02-19") in
  fanout st = Raise AssertionError /\
  reducer_node (Sample.services [] closed_book []) st world0
  = (Raise ValueError, world0).
Proof.
  intros st.
  destruct (null_plan_fails_fast (Sample.services [] closed_book []) st world0
              eq_refl) as [Hf [Hr _]].
  split; [exact Hf | exact Hr].
Defined.

(** C2: on a state with a plan, [fanout] returns one [Send] to the worker
    per task of the plan, in the plan's order; the payload of each carries
    that task together with the state's topic, mode, as-of date, recency
    window, the whole plan and the evidence list. The number of work units
    is the number of tasks of the plan at hand, and units get distinct task
    ids whenever the plan's ids are distinct. *)
Theorem fanout_one_unit_per_task (st : State) (p : Plan) :
  plan st = Some p ->
  exists sends,
    fanout st = Ok sends /\
    List.length sends = List.length (tasks p) /\
    map (fun s => p_task (send_arg s)) sends = tasks p /\
    Forall (fun s =>
              send_node s = worker /\
              p_topic (send_arg s) = topic st /\
              p_mode (send_arg s) = mode st /\
              p_as_of (send_arg s) = as_of st /\
              p_recency_days (send_arg s) = recency_days st /\
              p_plan (send_arg s) = p /\
              p_evidence (send_arg s) = evidence st) sends /\
    (NoDup (map task_id (tasks p)) ->
     NoDup (map (fun s => task_id (p_task (send_arg s))) sends)).
Proof.
  intros Hp. unfold fanout. rewrite Hp. eexists. split; [reflexivity|].
  assert (Htasks :
            map (fun s => p_task (send_arg s))
                (map (fun task =>
                        mkSend worker
                               (mkPayload (model_dump task) (topic st)
                                          (mode st) (as_of st)
                                          (recency_days st) (model_dump p)
                                          (map model_dump (evidence st))))
                     (tasks p))
            = tasks p).
  { rewrite map_map. simpl. apply map_id. }
  repeat split.
  - apply length_map.
  - exact Htasks.
  - apply Forall_forall. intros s Hs. apply in_map_iff in Hs.
    destruct Hs as [t [<- _]]. simpl.
    unfold model_dump. rewrite map_id. repeat split.
  - intros Hnd.
    rewrite <- (map_map (fun s => p_task (send_arg s)) task_id).
    rewrite Htasks. exact Hnd.
Qed.

(** A plan of three tasks gives three work units, for tasks 1, 2 and 3. *)
Lemma fanout_one_unit_per_task_witness :
  let st := Sample.state_with "hybrid" (Some Sample.plan3) [] in
  exists sends,
    fanout st = Ok sends /\
    List.length sends = 3%nat /\
    map (fun s => task_id (p_task (send_arg s))) sends = [1; 2; 3].
Proof.
  intros st.
  destruct (fanout_one_unit_per_task st Sample.plan3 eq_refl)
    as [sends [Hf [Hlen [Htasks _]]]].
  exists sends. repeat split.
  - exact Hf.
  - exact Hlen.
  - rewrite <- (map_map (fun s => p_task (send_arg s)) task_id).
    rewrite Htasks. reflexivity.
Defined.

(** ** Router and orchestrator *)

(** C6: whatever decision the classifier returns, the router's update sets
    [recency_days] from the decision's mode by the fixed table (7 for
    open_book, 45 for hybrid, 3650 for closed_book); no other field of the
    decision and no earlier value of the state enters it. *)
Theorem router_recency_from_mode
        (svc : Services) (st : State) (w : World) (d : RouterDecision) :
  decider_invoke svc (decide_request st) = Ok d ->
  exists u,
    router_node svc st w
    = (Ok u, mkWorld (calls w ++ [CallDecider (decide_request st)])
                     (files w)) /\
    u_recency_days u = Some (recency_of (d_mode d)) /\
    recency_days (apply_update u st) = recency_of (d_mode d) /\
    mode (apply_update u st) = mode_str (d_mode d) /\
    needs_research (apply_update u st) = d_needs_research d /\
    queries (apply_update u st) = d_queries d.
Proof.
  intros Hd. unfold router_node, bind, call. rewrite Hd.
  eexists. split; [reflexivity|].
  destruct d as [nr m reason qs mr]. simpl. destruct m; repeat split.
Qed.

(** The classifier picks hybrid while the state still holds the
    placeholder window of 7 days: the window becomes 45. *)
Lemma router_recency_from_mode_witness :
  let st := Sample.state_with "" None [] in
  exists u w',
    router_node (Sample.services [] hybrid []) st world0 = (Ok u, w') /\
    u_recency_days u = Some 45.
Proof.
  intros st.
  destruct (router_recency_from_mode (Sample.services [] hybrid []) st world0
              (Sample.decision hybrid) eq_refl) as [u [Hrun [Hrec _]]].
  exists u. eexists. split; [exact Hrun | exact Hrec].
Defined.

(** C7: the plan the orchestrator returns is the generated plan with, when
    the state's mode is open_book, its kind overwritten by news_roundup
    after the call; under any other mode the generated plan is returned as
    it is. *)
Theorem orchestrator_open_book_kind
        (svc : Services) (st : State) (w : World) (generated : Plan) :
  planner_invoke svc (plan_request st) = Ok generated ->
  exists p,
    orchestrator_node svc st w
    = (Ok (upd_plan p), mkWorld (calls w ++ [CallPlanner (plan_request st)])
                                (files w)) /\
    plan (apply_update (upd_plan p) st) = Some p /\
    (mode st = lit "open_book" ->
     blog_kind p = news_roundup /\
     p = set_blog_kind news_roundup generated) /\
    (mode st <> lit "open_book" ->
     p = generated /\ blog_kind p = blog_kind generated).
Proof.
  intros Hg. unfold orchestrator_node, bind, call. rewrite Hg.
  destruct (str_eqb (mode st) (lit "open_book")) eqn:E.
  - apply str_eqb_eq in E. eexists. split; [reflexivity|].
    repeat split; congruence.
  - apply str_eqb_neq in E. eexists. split; [reflexivity|].
    repeat split; congruence.
Qed.

(** The planner proposes a tutorial: under open_book the returned plan is a
    news roundup, under hybrid it stays a tutorial. *)
Lemma orchestrator_open_book_kind_witness :
  (exists p w',
      orchestrator_node (Sample.services [] open_book [])
                        (Sample.state_with "open_book" None []) world0
      = (Ok (upd_plan p), w') /\
      blog_kind Sample.plan2 = tutorial /\ blog_kind p = news_roundup) /\
  (exists p w',
      orchestrator_node (Sample.services [] hybrid [])
                        (Sample.state_with "hybrid" None []) world0
      = (Ok (upd_plan p), w') /\
      blog_kind p = tutorial).
Proof.
  split.
  - destruct (orchestrator_open_book_kind
                (Sample.services [] open_book [])
                (Sample.state_with "open_book" None []) world0
                Sample.plan2 eq_refl) as [p [Hrun [_ [Hob _]]]].
    exists p. eexists. split; [exact Hrun|].
    split; [reflexivity | apply Hob; reflexivity].
  - destruct (orchestrator_open_book_kind
                (Sample.services [] hybrid [])
                (Sample.state_with "hybrid" None []) world0
                Sample.plan2 eq_refl) as [p [Hrun [_ [_ Hother]]]].
    exists p. eexists. split; [exact Hrun|].
    destruct Hother as [-> _]; [discriminate | reflexivity].
Defined.

(** ** Research: deduplication *)

Lemma dict_set_in {V} (k k0 : str) (v v0 : V) (d : dict V) :
  In (k0, v0) (dict_set k v d) -> (k0 = k /\ v0 = v) \/ In (k0, v0) d.
Proof.
  induction d as [|[k' v'] d IH]; simpl.
  - intros [H|[]]. left. inversion H; auto.
  - destruct (str_eqb k' k) eqn:E; simpl.
    + apply str_eqb_eq in E; subst k'.
      intros [H|H]; [left; inversion H; auto | right; right; exact H].
    + intros [H|H]; [right; left; exact H|].
      destruct (IH H) as [?|?]; [left; assumption | right; right; assumption].
Qed.

Lemma dedupe_by_url_snoc (ev : list EvidenceItem) (e : EvidenceItem) :
  dedupe_by_url (ev ++ [e])
  = if truthy (url e) then dict_set (url e) e (dedupe_by_url ev)
    else dedupe_by_url ev.
Proof. unfold dedupe_by_url. rewrite fold_left_app. reflexivity. Qed.

Lemma last_with_url_snoc (u : str) (ev : list EvidenceItem) (e : EvidenceItem) :
  last_with_url u (ev ++ [e])
  = if str_eqb (url e) u then Some e else last_with_url u ev.
Proof. unfold last_with_url. rewrite rev_app_distr. reflexivity. Qed.

Lemma truthy_nonempty (s : str) : truthy s = true <-> s <> [].
Proof. destruct s; simpl; split; congruence. Qed.

(** Looking up a non-empty url finds the last item that had it. *)
Lemma dedupe_by_url_get (ev : list EvidenceItem) (u : str) :
  u <> [] -> dict_get u (dedupe_by_url ev) = last_with_url u ev.
Proof.
  intros Hu. induction ev as [|e ev IH] using rev_ind; [reflexivity|].
  rewrite dedupe_by_url_snoc, last_with_url_snoc.
  destruct (str_eqb (url e) u) eqn:E.
  - apply str_eqb_eq in E. subst u.
    apply truthy_nonempty in Hu. rewrite Hu. apply dict_get_set_same.
  - apply str_eqb_neq in E. destruct (truthy (url e)); [|exact IH].
    rewrite dict_get_set_other by congruence. exact IH.
Qed.

Lemma dedupe_by_url_nodup (ev : list EvidenceItem) :
  NoDup (map fst (dedupe_by_url ev)).
Proof.
  induction ev as [|e ev IH] using rev_ind; [constructor|].
  rewrite dedupe_by_url_snoc. destruct (truthy (url e)); [|exact IH].
  now apply dict_set_nodup.
Qed.

(** Every entry is filed under its own, non-empty url. *)
Lemma dedupe_by_url_keys (ev : list EvidenceItem) (k : str) (e : EvidenceItem) :
  In (k, e) (dedupe_by_url ev) -> k = url e /\ k <> [].
Proof.
  induction ev as [|e0 ev IH] using rev_ind; [intros []|].
  rewrite dedupe_by_url_snoc. destruct (truthy (url e0)) eqn:T; [|exact IH].
  intros H. apply dict_set_in in H. destruct H as [[-> ->]|H]; [|auto].
  split; [reflexivity | now apply truthy_nonempty].
Qed.

Lemma dedupe_by_url_keyed (ev : list EvidenceItem) :
  map fst (dedupe_by_url ev) = map url (dict_values (dedupe_by_url ev)).
Proof.
  unfold dict_values. rewrite map_map. apply map_ext_in.
  intros [k e] Hin. simpl. now apply dedupe_by_url_keys in Hin.
Qed.

(** C5: the evidence kept after deduplication holds each non-empty url
    once, and for each such url the item kept is the last one of the input
    with that url; items with an empty url are discarded. For the input
    [X at a; Y at a; Z at b] the result has exactly two items, [Y at a]
    then [Z at b], and this is what [research_node] returns for it outside
    open_book. *)
Theorem research_dedup_last_write_wins :
  (forall ev : list EvidenceItem,
      let kept := dict_values (dedupe_by_url ev) in
      NoDup (map url kept) /\
      map fst (dedupe_by_url ev) = map url kept /\
      (forall e, In e kept <->
                 url e <> [] /\ last_with_url (url e) ev = Some e)) /\
  dict_values (dedupe_by_url Sample.dup_items)
  = [Sample.item "Y" "a" None; Sample.item "Z" "b" None] /\
  List.length (dict_values (dedupe_by_url Sample.dup_items)) = 2%nat /\
  dict_get (lit "a") (dedupe_by_url Sample.dup_items)
  = Some (Sample.item "Y" "a" None) /\
  fst (research_node (Sample.services [Sample.hit] hybrid Sample.dup_items)
                     (Sample.state_with "hybrid" None []) world0)
  = Ok (upd_evidence [Sample.item "Y" "a" None; Sample.item "Z" "b" None]).
Proof.
  split; [|repeat split; reflexivity].
  intros ev kept. split; [|split].
  - unfold kept. rewrite <- dedupe_by_url_keyed. apply dedupe_by_url_nodup.
  - apply dedupe_by_url_keyed.
  - intros e. unfold kept, dict_values. rewrite in_map_iff. split.
    + intros [[k e'] [Heq Hin]]. simpl in Heq. subst e'.
      destruct (dedupe_by_url_keys _ _ _ Hin) as [-> Hne].
      split; [exact Hne|].
      rewrite <- (dedupe_by_url_get ev (url e) Hne).
      apply dict_in_get; [apply dedupe_by_url_nodup | exact Hin].
    + intros [Hne Hlast]. exists (url e, e). split; [reflexivity|].
      apply dict_in_get; [apply dedupe_by_url_nodup|].
      rewrite dedupe_by_url_get by exact Hne. exact Hlast.
Qed.

(** The item kept for url [a] is Y, the later one; X is gone. *)
Lemma research_dedup_last_write_wins_witness :
  In (Sample.item "Y" "a" None) (dict_values (dedupe_by_url Sample.dup_items))
  /\ ~ In (Sample.item "X" "a" None)
          (dict_values (dedupe_by_url Sample.dup_items)).
Proof.
  destruct (proj1 research_dedup_last_write_wins Sample.dup_items)
    as [_ [_ H]].
  split.
  - apply H. split; [discriminate | reflexivity].
  - intros Hin. apply H in Hin. destruct Hin as [_ Hlast].
    vm_compute in Hlast. discriminate Hlast.
Defined.

(** ** Research: searching and the recency filter *)



(** What [research_node] does once the searches have found something. *)
Lemma research_node_found
      (svc : Services) (st : State) (w w1 : World)
      (found : list (list Normalized)) (pack : EvidencePack) :
  mapM (fun query => tavily_search svc query 2) (firstn 2 (queries st)) w
  = (Ok found, w1) ->
  List.concat found <> [] ->
  extractor_invoke svc (extract_request st (List.concat found)) = Ok pack ->
  let deduped := dict_values (dedupe_by_url (pack_evidence pack)) in
  let w' := mkWorld (calls w1 ++ [CallExtractor
                                    (extract_request st (List.concat found))])
                    (files w1) in
  research_node svc st w
  = if str_eqb (mode st) (lit "open_book") then
      match date_fromisoformat svc (as_of st) with
      | Ok as_of_date =>
          match date_sub_days as_of_date (recency_days st) with
          | Ok cutoff_date =>
              (Ok (upd_evidence (filter (is_fresh svc cutoff_date) deduped)), w')
          | Raise e => (Raise e, w')
          end
      | Raise e => (Raise e, w')
      end
    else (Ok (upd_evidence deduped), w').
Proof.
  intros Hsearch Hne Hpack deduped w'.
  unfold research_node. unfold bind at 1. rewrite Hsearch.
  destruct (List.concat found) as [|r rs] eqn:Hc; [congruence|].
  unfold bind at 1. unfold call. rewrite Hpack.
  destruct (str_eqb (mode st) (lit "open_book")); [|reflexivity].
  unfold bind, lift.
  destruct (date_fromisoformat svc (as_of st)); [|reflexivity].
  destruct (date_sub_days a (recency_days st)); reflexivity.
Qed.

Lemma date_sub_days_ok (d n c : Z) :
  date_sub_days d n = Ok c -> c = d - n.
Proof.
  unfold date_sub_days.
  destruct (_ && _); intros H; inversion H; reflexivity.
Qed.

(** C4: once the searches have found something and the normalizer has
    answered, [research_node] filters by date exactly when the mode is
    open_book. Under open_book, with [as_of] a date and the cutoff
    [as_of - recency_days] in range, the evidence returned is the
    deduplicated evidence, in its order, restricted to the items whose
    [published_at] gives a date on or after the cutoff; an item with
    [published_at] null, or with one that [iso_to_date] cannot read, or
    dated before the cutoff, is dropped. Under any other mode the
    deduplicated evidence is returned whole. *)
Theorem research_recency_filter_open_book_only
        (svc : Services) (st : State) (w w1 : World)
        (found : list (list Normalized)) (pack : EvidencePack) :
  mapM (fun query => tavily_search svc query 2) (firstn 2 (queries st)) w
  = (Ok found, w1) ->
  List.concat found <> [] ->
  extractor_invoke svc (extract_request st (List.concat found)) = Ok pack ->
  let deduped := dict_values (dedupe_by_url (pack_evidence pack)) in
  exists w',
    (mode st = lit "open_book" ->
     forall as_of_date cutoff_date,
       date_fromisoformat svc (as_of st) = Ok as_of_date ->
       date_sub_days as_of_date (recency_days st) = Ok cutoff_date ->
       exists kept,
         research_node svc st w = (Ok (upd_evidence kept), w') /\
         kept = filter (is_fresh svc cutoff_date) deduped /\
         cutoff_date = as_of_date - recency_days st /\
         (forall item,
             In item kept <->
             In item deduped /\
             exists item_date,
               iso_to_date svc (published_at item) = Some item_date /\
               as_of_date - recency_days st <= item_date) /\
         (forall item, published_at item = None -> ~ In item kept) /\
         (forall item, iso_to_date svc (published_at item) = None ->
                       ~ In item kept) /\
         (forall item item_date,
             iso_to_date svc (published_at item) = Some item_date ->
             item_date < as_of_date - recency_days st -> ~ In item kept)) /\
    (mode st <> lit "open_book" ->
     research_node svc st w = (Ok (upd_evidence deduped), w')).
Proof.
  intros Hsearch Hne Hpack deduped.
  pose proof (research_node_found svc st w w1 found pack Hsearch Hne Hpack)
    as Hrun.
  cbv zeta in Hrun. fold deduped in Hrun.
  eexists. split.
  - intros Hmode as_of_date cutoff_date Hdate Hcut.
    rewrite Hmode in Hrun. simpl str_eqb in Hrun.
    rewrite Hdate, Hcut in Hrun.
    pose proof (date_sub_days_ok _ _ _ Hcut) as Hc.
    assert (Hiff : forall item,
               In item (filter (is_fresh svc cutoff_date) deduped) <->
               In item deduped /\
               exists item_date,
                 iso_to_date svc (published_at item) = Some item_date /\
                 as_of_date - recency_days st <= item_date).
    { intros item. rewrite filter_In, <- Hc. unfold is_fresh.
      destruct (iso_to_date svc (published_at item)) as [d|].
      - rewrite Z.leb_le. split.
        + intros [Hin Hle]. split; [exact Hin|]. exists d. auto.
        + intros [Hin [d' [Heq Hle]]]. inversion Heq; subst. auto.
      - split; [intros [_ H]; discriminate|].
        intros [_ [d' [Heq _]]]. discriminate. }
    eexists. split; [exact Hrun|]. split; [reflexivity|].
    split; [exact Hc|]. split; [exact Hiff|]. repeat split.
    + intros item Hnull Hin. apply Hiff in Hin.
      destruct Hin as [_ [d [Hd _]]]. rewrite Hnull in Hd. discriminate.
    + intros item Hnone Hin. apply Hiff in Hin.
      destruct Hin as [_ [d [Hd _]]]. congruence.
    + intros item d Hd Hlt Hin. apply Hiff in Hin.
      destruct Hin as [_ [d' [Hd' Hle]]].
      rewrite Hd in Hd'. inversion Hd'; subst. lia.
  - intros Hmode. apply str_eqb_neq in Hmode. rewrite Hmode in Hrun.
    exact Hrun.
Qed.

(** As of 2026-02-19 with a window of 7 days, of the items dated
    2026-02-18, 2026-02-10 and undated, open_book keeps the first only and
    hybrid keeps all three. *)
Lemma research_recency_filter_open_book_only_witness :
  fst (research_node (Sample.services [Sample.hit] open_book Sample.dated_items)
                     (Sample.state_with "open_book" None []) world0)
  = Ok (upd_evidence [Sample.item "new" "u1" (Some "2026-02-18"%string)])
  /\
  fst (research_node (Sample.services [Sample.hit] hybrid Sample.dated_items)
                     (Sample.state_with "hybrid" None []) world0)
  = Ok (upd_evidence Sample.dated_items).
Proof.
  split.
  - edestruct (research_recency_filter_open_book_only
                 (Sample.services [Sample.hit] open_book Sample.dated_items)
                 (Sample.state_with "open_book" None []) world0)
      as [w' [Hob _]]; [reflexivity | discriminate | reflexivity |].
    destruct (Hob eq_refl _ _ eq_refl eq_refl) as [kept [Hrun [Hkept _]]].
    rewrite Hrun. simpl. rewrite Hkept. reflexivity.
  - edestruct (research_recency_filter_open_book_only
                 (Sample.services [Sample.hit] hybrid Sample.dated_items)
                 (Sample.state_with "hybrid" None []) world0)
      as [w' [_ Hother]]; [reflexivity | discriminate | reflexivity |].
    rewrite Hother by discriminate. reflexivity.
Defined.



(** * Further properties of the stages *)

(** ** Stripping *)

Lemma lstrip_split (s : str) :
  exists pre, s = pre ++ lstrip s /\ forallb isspace pre = true.
Proof.
  induction s as [|c s [pre [Heq Hsp]]]; simpl.
  - exists []. auto.
  - destruct (isspace c) eqn:E.
    + exists (c :: pre). simpl. rewrite E, Hsp. split; [congruence | reflexivity].
    + exists []. auto.
Qed.

Lemma lstrip_starts_clean (s : str) :
  lstrip s = [] \/ starts_clean (lstrip s) = true.
Proof.
  induction s as [|c s IH]; simpl; [auto|].
  destruct (isspace c) eqn:E; [exact IH|].
  right. simpl. now rewrite E.
Qed.

Lemma lstrip_clean (s : str) : starts_clean s = true -> lstrip s = s.
Proof.
  destruct s as [|c s]; simpl; [discriminate|].
  now destruct (isspace c).
Qed.

Lemma starts_clean_app (a b : str) :
  starts_clean a = true -> starts_clean (a ++ b) = true.
Proof. destruct a; simpl; [discriminate | auto]. Qed.

(** What [rstrip] cuts off is whitespace at the end. *)
Lemma rstrip_split (s : str) :
  exists post, s = rstrip s ++ post /\ forallb isspace post = true.
Proof.
  unfold rstrip. destruct (lstrip_split (rev s)) as [pre [Heq Hsp]].
  exists (rev pre). split.
  - rewrite <- rev_app_distr, <- Heq. symmetry. apply rev_involutive.
  - rewrite forallb_forall in *. intros x Hx. apply Hsp. now apply in_rev.
Qed.

Lemma strip_clean (s : str) :
  strip s = [] \/ (starts_clean (strip s) = true /\ ends_clean (strip s) = true).
Proof.
  unfold strip.
  destruct (rstrip (lstrip s)) as [|x r] eqn:E; [auto|]. right. split.
  - destruct (rstrip_split (lstrip s)) as [post [Heq _]]. rewrite E in Heq.
    destruct (lstrip_starts_clean s) as [H0|Hc].
    + rewrite H0 in Heq. discriminate.
    + rewrite Heq in Hc. exact Hc.
  - unfold ends_clean. rewrite <- E. unfold rstrip. rewrite rev_involutive.
    destruct (lstrip_starts_clean (rev (lstrip s))) as [H0|Hc]; [|exact Hc].
    unfold rstrip in E. rewrite H0 in E. discriminate.
Qed.

Lemma strip_fixed (s : str) :
  starts_clean s = true -> ends_clean s = true -> strip s = s.
Proof.
  intros Hs He. unfold strip, rstrip. rewrite (lstrip_clean s Hs).
  rewrite (lstrip_clean (rev s) He). apply rev_involutive.
Qed.

Lemma strip_idempotent (s : str) : strip (strip s) = strip s.
Proof.
  destruct (strip_clean s) as [H0|[Hs He]].
  - rewrite H0. reflexivity.
  - now apply strip_fixed.
Qed.

(** ** The worker *)

Lemma worker_node_unfold (svc : Services) (payload : Payload) (w : World) :
  worker_node svc payload w
  = match llm_invoke svc (write_request payload) with
    | Ok content =>
        (Ok (upd_sections [(task_id (p_task payload), strip content)]),
         mkWorld (calls w ++ [CallLlm (write_request payload)]) (files w))
    | Raise e =>
        (Raise e,
         mkWorld (calls w ++ [CallLlm (write_request payload)]) (files w))
    end.
Proof.
  unfold worker_node, bind, call, write_request.
  destruct (llm_invoke svc _); reflexivity.
Qed.

(** X1: a worker whose writer call answers contributes exactly one pair,
    under the id of its own task; the content is the answer stripped, so it
    neither starts nor ends with whitespace and stripping it again changes
    nothing. The worker makes that one call and writes no file. *)
Theorem worker_contributes_one_stripped_section
        (svc : Services) (payload : Payload) (w : World) (content : str) :
  llm_invoke svc (write_request payload) = Ok content ->
  exists section_md,
    worker_node svc payload w
    = (Ok (upd_sections [(task_id (p_task payload), section_md)]),
       mkWorld (calls w ++ [CallLlm (write_request payload)]) (files w)) /\
    section_md = strip content /\
    strip section_md = section_md /\
    (section_md = [] \/
     (starts_clean section_md = true /\ ends_clean section_md = true)).
Proof.
  intros Hllm. exists (strip content). repeat split.
  - rewrite worker_node_unfold, Hllm. reflexivity.
  - apply strip_idempotent.
  - apply strip_clean.
Qed.

(** The writer answers [" Intro\n"]: the section is ["Intro"]. *)
Lemma worker_contributes_one_stripped_section_witness :
  fst (worker_node SampleApp.no_research SampleApp.payload1 world0)
  = Ok (upd_sections [(1, lit "Intro")]).
Proof.
  destruct (worker_contributes_one_stripped_section
              SampleApp.no_research SampleApp.payload1 world0 _ eq_refl)
    as [md [Hrun [Hmd _]]].
  rewrite Hrun. simpl. rewrite Hmd. reflexivity.
Defined.

(** ** The reducer's body for clean sections *)

Lemma starts_clean_join (sep x : str) (rest : list str) :
  starts_clean x = true -> starts_clean (join sep (x :: rest)) = true.
Proof.
  intros Hx. destruct rest; simpl; [exact Hx|]. now apply starts_clean_app.
Qed.

Lemma ends_clean_join (sep : str) (l : list str) :
  l <> [] -> Forall (fun c => ends_clean c = true) l ->
  ends_clean (join sep l) = true.
Proof.
  induction l as [|x l IH]; [congruence|]. intros _ Hall.
  inversion Hall as [|? ? Hx Hl]; subst.
  destruct l as [|y l]; [exact Hx|].
  change (join sep (x :: y :: l)) with (x ++ sep ++ join sep (y :: l)).
  unfold ends_clean. rewrite !rev_app_distr, <- app_assoc.
  apply starts_clean_app. apply IH; [discriminate | exact Hl].
Qed.

(** X2: when every collected section is non-empty and stripped, as the
    workers' non-empty outputs are, the reducer's stripping removes
    nothing: the body is the contents in ascending order of id joined by
    blank lines. *)
Theorem reducer_body_of_stripped_sections (sections : list (Z * str)) :
  Forall (fun pair => snd pair <> [] /\ strip (snd pair) = snd pair) sections ->
  reducer_body sections = join [LF; LF] (ordered_sections sections).
Proof.
  intros Hall.
  assert (Hclean : Forall (fun c => starts_clean c = true /\ ends_clean c = true)
                          (ordered_sections sections)).
  { rewrite Forall_forall in *. intros c Hc.
    unfold ordered_sections in Hc. apply in_map_iff in Hc.
    destruct Hc as [pair [<- Hin]].
    apply (Permutation_in _ (sorted_perm fst sections)) in Hin.
    destruct (Hall pair Hin) as [Hne Hfix].
    destruct (strip_clean (snd pair)) as [H0|H].
    - exfalso. apply Hne. transitivity (strip (snd pair)); auto.
    - destruct H as [Hs He]. split.
      + exact (eq_trans (f_equal starts_clean (eq_sym Hfix)) Hs).
      + exact (eq_trans (f_equal ends_clean (eq_sym Hfix)) He). }
  unfold reducer_body.
  destruct (ordered_sections sections) as [|x l] eqn:E; [reflexivity|].
  apply strip_fixed.
  - apply starts_clean_join. inversion Hclean; tauto.
  - apply ends_clean_join; [discriminate|].
    eapply Forall_impl; [|exact Hclean]. simpl. tauto.
Qed.

(** Sections c, a, b arriving in that order. *)
Lemma reducer_body_of_stripped_sections_witness :
  reducer_body Sample.arrived
  = lit "a" ++ [LF; LF] ++ lit "b" ++ [LF; LF] ++ lit "c".
Proof.
  rewrite (reducer_body_of_stripped_sections Sample.arrived).
  - reflexivity.
  - repeat constructor; discriminate.
Defined.

(** ** The search helper *)

Lemma tavily_search_unfold (svc : Services) (q : str) (n : Z) (w : World) :
  tavily_search svc q n w
  = match tool_invoke svc q n with
    | Ok resp =>
        (Ok (normalize_results (response_results resp)),
         mkWorld (calls w ++ [CallSearch q n]) (files w))
    | Raise e => (Raise e, mkWorld (calls w ++ [CallSearch q n]) (files w))
    end.
Proof.
  unfold tavily_search, bind, call. destruct (tool_invoke svc q n); reflexivity.
Qed.

Lemma normalize_results_length (items : list RawItem) :
  List.length (normalize_results items)
  = List.length (filter is_dict_item items).
Proof.
  induction items as [|[|r] items IH]; simpl; auto.
Qed.



(** ** Research: calls, failures and the evidence returned *)

(** The log of a series of searches: the queries up to the first that
    fails, each asked once; all of them when the series succeeds. *)
Lemma searches_log (svc : Services) (qs : list str) (w : World) :
  exists k,
    (k <= List.length qs)%nat /\
    calls (snd (mapM (fun query => tavily_search svc query 2) qs w))
    = calls w ++ map (fun q => CallSearch q 2) (firstn k qs) /\
    files (snd (mapM (fun query => tavily_search svc query 2) qs w))
    = files w.
Proof.
  revert w. induction qs as [|q qs IH]; intros w.
  - exists 0%nat. simpl. rewrite app_nil_r. auto.
  - cbn [mapM]. unfold bind. rewrite tavily_search_unfold.
    destruct (tool_invoke svc q 2) as [resp|e].
    + destruct (IH (mkWorld (calls w ++ [CallSearch q 2]) (files w)))
        as [k [Hk [Hcalls Hfiles]]].
      exists (S k). split; [simpl; lia|].
      destruct (mapM _ qs _) as [[bs|e] w2]; simpl in *;
        rewrite Hcalls, <- app_assoc; auto.
    + exists 1%nat. simpl. split; [lia | auto].
Qed.

(** X4: whatever the collaborators answer, [research_node] searches at
    most the first two queries, asking two results of each, then calls the
    normalizer at most once, and does nothing else: no other call is made
    and no file is written. *)
Theorem research_calls_bounded (svc : Services) (st : State) (w : World) :
  exists k extra,
    (k <= 2)%nat /\
    calls (snd (research_node svc st w))
    = calls w ++ map (fun q => CallSearch q 2) (firstn k (queries st))
      ++ extra /\
    (extra = [] \/ exists r, extra = [CallExtractor r]) /\
    files (snd (research_node svc st w)) = files w.
Proof.
  destruct (searches_log svc (firstn 2 (queries st)) w)
    as [k [Hk [Hcalls Hfiles]]].
  assert (Hk2 : (k <= 2)%nat).
  { rewrite length_firstn in Hk. lia. }
  rewrite firstn_firstn in Hcalls.
  replace (Nat.min k 2) with k in Hcalls by lia.
  exists k. unfold research_node. unfold bind, call, lift, ret.
  destruct (mapM _ (firstn 2 (queries st)) w) as [[found|e] w1];
    simpl in Hcalls, Hfiles.
  - destruct (List.concat found) as [|r rs].
    + exists []. simpl. rewrite app_nil_r. auto.
    + eexists [CallExtractor _].
      destruct (extractor_invoke svc _) as [pack|e]; simpl.
      * destruct (str_eqb (mode st) (lit "open_book")).
        -- destruct (date_fromisoformat svc (as_of st)) as [d|e]; simpl.
           ++ destruct (date_sub_days d (recency_days st)); simpl;
                rewrite Hcalls, <- app_assoc; eauto 6.
           ++ rewrite Hcalls, <- app_assoc; eauto 6.
        -- simpl. rewrite Hcalls, <- app_assoc; eauto 6.
      * rewrite Hcalls, <- app_assoc; eauto 6.
  - exists []. simpl. rewrite app_nil_r. auto.
Qed.

(** X5: when the search of the first query raises, [research_node] raises
    the same error at once: the other queries are not searched and the
    normalizer is not called. *)
Theorem research_search_failure_aborts
        (svc : Services) (st : State) (w : World)
        (q : str) (rest : list str) (e : exn) :
  queries st = q :: rest ->
  tool_invoke svc q 2 = Raise e ->
  research_node svc st w
  = (Raise e, mkWorld (calls w ++ [CallSearch q 2]) (files w)).
Proof.
  intros Hq Htool. unfold research_node. rewrite Hq.
  destruct rest as [|q2 rest]; simpl firstn; simpl mapM;
    unfold bind; rewrite tavily_search_unfold, Htool; reflexivity.
Qed.

Lemma research_search_failure_aborts_witness :
  research_node SampleApp.search_down (Sample.state_with "hybrid" None [])
                world0
  = (Raise (ExternalError 503), mkWorld [CallSearch (lit "q one") 2] []).
Proof.
  exact (research_search_failure_aborts
           SampleApp.search_down (Sample.state_with "hybrid" None []) world0
           _ _ _ eq_refl eq_refl).
Defined.



(** Filtering evidence keeps its urls distinct. *)
Lemma filter_keeps_urls_distinct
      (keep : EvidenceItem -> bool) (ev : list EvidenceItem) :
  NoDup (map url ev) -> NoDup (map url (filter keep ev)).
Proof.
  induction ev as [|e ev IH]; simpl; intros Hnd; [constructor|].
  inversion Hnd as [|? ? Hout Hnd']; subst.
  destruct (keep e); simpl; [|auto].
  constructor; [|auto].
  intros Hin. apply Hout. apply in_map_iff in Hin.
  destruct Hin as [y [Hy Hin]]. apply filter_In in Hin.
  apply in_map_iff. exists y. tauto.
Qed.

Lemma dedupe_values_distinct (ev : list EvidenceItem) :
  NoDup (map url (dict_values (dedupe_by_url ev))) /\
  forall e, In e (dict_values (dedupe_by_url ev)) -> url e <> [].
Proof.
  split.
  - rewrite <- dedupe_by_url_keyed. apply dedupe_by_url_nodup.
  - intros e Hin. unfold dict_values in Hin. apply in_map_iff in Hin.
    destruct Hin as [[k e'] [Heq Hin]]. simpl in Heq. subst e'.
    destruct (dedupe_by_url_keys _ _ _ Hin) as [<- Hne]. exact Hne.
Qed.

(** X7: whenever [research_node] returns, under any mode, what it returns
    is an evidence list (and no other key) whose urls are non-empty and
    pairwise distinct. *)
Theorem research_evidence_urls_distinct
        (svc : Services) (st : State) (w w' : World) (u : Update) :
  research_node svc st w = (Ok u, w') ->
  exists ev,
    u = upd_evidence ev /\
    NoDup (map url ev) /\
    (forall e, In e ev -> url e <> []).
Proof.
  unfold research_node, bind, call, lift, ret.
  destruct (mapM _ (firstn 2 (queries st)) w) as [[found|e] w1];
    [|discriminate].
  destruct (List.concat found) as [|r rs].
  - intros H. inversion H; subst. exists []. repeat split.
    + constructor.
    + intros e [].
  - destruct (extractor_invoke svc _) as [pack|e]; [|discriminate].
    destruct (dedupe_values_distinct (pack_evidence pack)) as [Hnd Hne].
    destruct (str_eqb (mode st) (lit "open_book")).
    + destruct (date_fromisoformat svc (as_of st)) as [d|e]; [|discriminate].
      destruct (date_sub_days d (recency_days st)) as [c|e]; [|discriminate].
      intros H. inversion H; subst. eexists. split; [reflexivity|]. split.
      * now apply filter_keeps_urls_distinct.
      * intros e He. apply filter_In in He. apply Hne. tauto.
    + intros H. inversion H; subst. eexists. split; [reflexivity|]. auto.
Qed.

(** The normalizer answers X at a, Y at a, Z at b. *)
Lemma research_evidence_urls_distinct_witness :
  exists ev,
    fst (research_node (Sample.services [Sample.hit] hybrid Sample.dup_items)
                       (Sample.state_with "hybrid" None []) world0)
    = Ok (upd_evidence ev) /\
    NoDup (map url ev).
Proof.
  destruct (research_evidence_urls_distinct
              (Sample.services [Sample.hit] hybrid Sample.dup_items)
              (Sample.state_with "hybrid" None []) world0 _ _ eq_refl)
    as [ev [Hu [Hnd _]]].
  exists ev. split; [|exact Hnd].
  rewrite <- Hu. reflexivity.
Defined.

Lemma dict_set_new {V} (k : str) (v : V) (d : dict V) :
  ~ In k (map fst d) -> dict_set k v d = d ++ [(k, v)].
Proof.
  induction d as [|[k' v'] d IH]; simpl; [reflexivity|].
  intros Hout. destruct (str_eqb k' k) eqn:E.
  - apply str_eqb_eq in E. tauto.
  - f_equal. apply IH. tauto.
Qed.

(** On evidence that is already free of duplicates the dict is the list
    itself, each item under its url. *)
Lemma dedupe_by_url_clean (ev : list EvidenceItem) :
  NoDup (map url ev) ->
  (forall e, In e ev -> url e <> []) ->
  dedupe_by_url ev = map (fun e => (url e, e)) ev.
Proof.
  induction ev as [|e ev IH] using rev_ind; [reflexivity|].
  intros Hnd Hne. rewrite map_app in Hnd.
  simpl in Hnd. apply NoDup_remove in Hnd. rewrite app_nil_r in Hnd.
  destruct Hnd as [Hnd Hout].
  rewrite dedupe_by_url_snoc.
  assert (Ht : truthy (url e) = true).
  { apply truthy_nonempty, Hne, in_or_app. right. left. reflexivity. }
  rewrite Ht, IH; [|exact Hnd|intros x Hx; apply Hne, in_or_app; auto].
  rewrite dict_set_new.
  - rewrite map_app. reflexivity.
  - rewrite map_map. simpl. exact Hout.
Qed.

(** X8: when the normalizer's answer already has non-empty, pairwise
    distinct urls, the deduplication changes nothing, order included: under
    a mode other than open_book [research_node] returns the answer's
    evidence as it came. *)
Theorem research_keeps_clean_evidence
        (svc : Services) (st : State) (w w1 : World)
        (found : list (list Normalized)) (pack : EvidencePack) :
  mapM (fun query => tavily_search svc query 2) (firstn 2 (queries st)) w
  = (Ok found, w1) ->
  List.concat found <> [] ->
  extractor_invoke svc (extract_request st (List.concat found)) = Ok pack ->
  NoDup (map url (pack_evidence pack)) ->
  (forall e, In e (pack_evidence pack) -> url e <> []) ->
  mode st <> lit "open_book" ->
  dict_values (dedupe_by_url (pack_evidence pack)) = pack_evidence pack /\
  fst (research_node svc st w) = Ok (upd_evidence (pack_evidence pack)).
Proof.
  intros Hsearch Hne Hpack Hnd Hurls Hmode.
  assert (Hid : dict_values (dedupe_by_url (pack_evidence pack))
                = pack_evidence pack).
  { rewrite dedupe_by_url_clean by assumption.
    unfold dict_values. rewrite map_map. apply map_id. }
  split; [exact Hid|].
  rewrite (research_node_found svc st w w1 found pack Hsearch Hne Hpack).
  apply str_eqb_neq in Hmode. rewrite Hmode, Hid. reflexivity.
Qed.

Lemma research_keeps_clean_evidence_witness :
  fst (research_node (Sample.services [Sample.hit] hybrid Sample.dated_items)
                     (Sample.state_with "hybrid" None []) world0)
  = Ok (upd_evidence Sample.dated_items).
Proof.
  refine (proj2 (research_keeps_clean_evidence
                   (Sample.services [Sample.hit] hybrid Sample.dated_items)
                   (Sample.state_with "hybrid" None []) world0 _ _
                   (mkEvidencePack Sample.dated_items) eq_refl _ eq_refl
                   _ _ _)).
  - discriminate.
  - repeat constructor; simpl; intuition discriminate.
  - simpl. intros e [<-|[<-|[<-|[]]]]; discriminate.
  - discriminate.
Defined.

(** ** Reading dates *)

(** X9: [iso_to_date] reads the first ten characters only: whatever
    follows them (a time of day, a zone) does not change the result. *)
Theorem iso_to_date_reads_first_ten (svc : Services) (s rest : str) :
  List.length s = 10%nat ->
  iso_to_date svc (Some (s ++ rest)) = iso_to_date svc (Some s).
Proof.
  intros Hlen. unfold iso_to_date.
  assert (Hne : exists c s', s = c :: s').
  { destruct s; [discriminate | eauto]. }
  destruct Hne as [c [s' ->]]. simpl truthy. cbv iota. simpl negb. cbv iota.
  rewrite <- Hlen at 1. rewrite firstn_app, firstn_all.
  replace (List.length (c :: s') - List.length (c :: s'))%nat with 0%nat by lia.
  rewrite <- Hlen. rewrite firstn_all. simpl firstn. now rewrite app_nil_r.
Qed.

(** A timestamp reads as its day. *)
Lemma iso_to_date_reads_first_ten_witness :
  iso_to_date (Sample.services [] hybrid [])
              (Some (lit "2026-02-18T09:30:00Z")) = Some 739665.
Proof.
  exact (eq_trans (iso_to_date_reads_first_ten
                     (Sample.services [] hybrid [])
                     (lit "2026-02-18") (lit "T09:30:00Z") eq_refl)
                  eq_refl).
Defined.

(** ** The compiled graph *)

(** One step of the graph from a node other than [END]. *)
Lemma run_step (svc : Services) (k : nat) (n : Node) (st : State) (w : World) :
  n <> END ->
  run svc (S k) n st w
  = match run_node svc n st w with
    | (Ok st', w1) =>
        match next_of n st' with
        | Ok (Goto m) => run svc k m st' w1
        | Ok Halt => (Ok st', w1)
        | Ok (Spawn []) => (Ok st', w1)
        | Ok (Spawn (s :: ss)) =>
            match gather (fun s => worker_node svc (send_arg s)) (s :: ss) w1 with
            | (Ok us, w2) =>
                run svc k reducer
                    (fold_left (fun s u => apply_update u s) us st') w2
            | (Raise e, w2) => (Raise e, w2)
            end
        | Raise e => (Raise e, w1)
        end
    | (Raise e, w1) => (Raise e, w1)
    end.
Proof.
  intros Hn.
  assert (Hrun : run svc (S k) n st w
                 = bind (run_node svc n st)
                     (fun st' =>
                        bind (lift (next_of n st'))
                          (fun nx =>
                             match nx with
                             | Goto m => run svc k m st'
                             | Halt => ret st'
                             | Spawn [] => ret st'
                             | Spawn sends =>
                                 bind (gather (fun s => worker_node svc (send_arg s))
                                            sends)
                                   (fun us =>
                                      run svc k reducer
                                          (fold_left
                                             (fun s u => apply_update u s)
                                             us st'))
                             end)) w).
  { destruct n; try congruence; reflexivity. }
  rewrite Hrun. unfold bind at 1.
  destruct (run_node svc n st w) as [[st'|e] w1]; [|reflexivity].
  unfold bind at 1. unfold lift.
  destruct (next_of n st') as [[m|[|s ss]|]|e]; try reflexivity.
Qed.

(** Every edge leads to a node with fewer nodes ahead, the edges to the
    workers of a batch included. *)
Lemma edge_targets_decrease (n m : Node) (st : State) :
  In m (edge_targets n st) -> (nodes_ahead m < nodes_ahead n)%nat.
Proof.
  unfold edge_targets, next_of. destruct n; simpl.
  - intros [<-|[]]. simpl. lia.
  - unfold route_next. destruct (needs_research st);
      intros [<-|[]]; simpl; lia.
  - intros [<-|[]]. simpl. lia.
  - unfold fanout. destruct (plan st) as [p|]; simpl; [|tauto].
    rewrite map_map. simpl. intros Hin. apply in_map_iff in Hin.
    destruct Hin as [t [<- _]]. simpl. lia.
  - intros [<-|[]]. simpl. lia.
  - intros [<-|[]]. simpl. lia.
  - tauto.
Qed.

Lemma next_of_decreases (n m : Node) (st : State) :
  next_of n st = Ok (Goto m) -> (nodes_ahead m < nodes_ahead n)%nat.
Proof.
  intros H. apply (edge_targets_decrease n m st).
  unfold edge_targets. rewrite H. now left.
Qed.

Lemma next_of_spawn (n : Node) (st : State) (sends : list Send) :
  next_of n st = Ok (Spawn sends) -> n = orchestrator.
Proof.
  destruct n; unfold next_of; simpl; try discriminate; try reflexivity.
Qed.

Lemma run_enough_steps (svc : Services) (a : nat) :
  forall (b : nat) (n : Node) (st : State) (w : World),
    (nodes_ahead n <= a)%nat -> (nodes_ahead n <= b)%nat ->
    run svc a n st w = run svc b n st w.
Proof.
  induction a as [|a IH]; intros b n st w Ha Hb.
  - destruct n; simpl in Ha; lia.
  - destruct b as [|b]; [destruct n; simpl in Hb; lia|].
    destruct (Node_eqb n END) eqn:E.
    + destruct n; try discriminate. reflexivity.
    + assert (Hn : n <> END) by (intros ->; discriminate).
      rewrite !run_step by exact Hn.
      destruct (run_node svc n st w) as [[st'|e] w1]; [|reflexivity].
      destruct (next_of n st') as [[m|[|s ss]|]|e] eqn:Hnext; try reflexivity.
      * apply next_of_decreases in Hnext. apply IH; lia.
      * apply next_of_spawn in Hnext. subst n. simpl in Ha, Hb.
        destruct (gather _ (s :: ss) w1) as [[us|e] w2]; [|reflexivity].
        apply IH; simpl; lia.
Qed.

(** X10: the graph has no cycle: every edge out of a node, the edges that
    send out the workers of a batch included, leads to a node with strictly
    fewer nodes ahead of it. So a run never needs more steps than the nodes
    ahead of its starting node, 7 from [START]: with that many steps or
    more the result is the same. In particular [invoke], with its limit of
    25, never stops for want of steps. *)
Theorem graph_has_no_cycle_and_runs_are_bounded
        (svc : Services) (st : State) (w : World) :
  (forall n m s, In m (edge_targets n s) ->
                 (nodes_ahead m < nodes_ahead n)%nat) /\
  (forall n k, (nodes_ahead n <= k)%nat ->
               run svc k n st w = run svc (nodes_ahead n) n st w) /\
  invoke svc st w = run svc 7 START st w.
Proof.
  split; [|split].
  - intros n m s. apply edge_targets_decrease.
  - intros n k Hk. apply run_enough_steps; [exact Hk | lia].
  - apply run_enough_steps; simpl; lia.
Qed.

(** The edge to the workers, and a run from research with steps to
    spare. *)
Lemma graph_has_no_cycle_and_runs_are_bounded_witness :
  edge_targets orchestrator (Sample.state_with "hybrid" (Some Sample.plan2) [])
  = [worker; worker] /\
  (nodes_ahead worker < nodes_ahead orchestrator)%nat /\
  run (Sample.services [] hybrid []) 40 research
      (Sample.state_with "hybrid" None []) world0
  = run (Sample.services [] hybrid []) 5 research
        (Sample.state_with "hybrid" None []) world0.
Proof.
  destruct (graph_has_no_cycle_and_runs_are_bounded
              (Sample.services [] hybrid [])
              (Sample.state_with "hybrid" None []) world0)
    as [Hedge [Hrun _]].
  split; [reflexivity|]. split.
  - apply (Hedge orchestrator worker
                 (Sample.state_with "hybrid" (Some Sample.plan2) [])).
    simpl. auto.
  - apply (Hrun research 40%nat). simpl. lia.
Defined.

(** ** From the plan to the document *)






(** ** What a run keeps *)

Lemma grows_from_refl (st : State) : grows_from st st.
Proof.
  repeat split. exists []. now rewrite app_nil_r.
Qed.

Lemma grows_from_trans (a b c : State) :
  grows_from a b -> grows_from b c -> grows_from a c.
Proof.
  intros [Ht [Ha [x Hx]]] [Ht' [Ha' [y Hy]]].
  repeat split; try congruence.
  exists (x ++ y). rewrite Hy, Hx. now rewrite app_assoc.
Qed.

Lemma grows_from_update (u : Update) (st : State) :
  grows_from st (apply_update u st).
Proof.
  repeat split. unfold apply_update. simpl.
  destruct (u_sections u) as [s|].
  - now exists s.
  - exists []. now rewrite app_nil_r.
Qed.

Lemma grows_from_merge (us : list Update) :
  forall st, grows_from st (fold_left (fun s u => apply_update u s) us st).
Proof.
  induction us as [|u us IH]; intros st; simpl.
  - apply grows_from_refl.
  - eapply grows_from_trans; [apply grows_from_update | apply IH].
Qed.

Lemma run_node_grows (svc : Services) (n : Node) (st st' : State) (w w' : World) :
  run_node svc n st w = (Ok st', w') -> grows_from st st'.
Proof.
  unfold run_node. destruct (node_function svc n) as [f|].
  - unfold bind, ret. destruct (f st w) as [[u|e] w1]; [|discriminate].
    intros H. inversion H; subst. apply grows_from_update.
  - unfold ret. intros H. inversion H; subst. apply grows_from_refl.
Qed.

(** X12: however a run goes, if it ends normally from any node the state it
    returns has the topic and the as-of date it started with, and its
    sections are the starting ones with pairs appended: no node rewrites or
    removes what is there. *)
Theorem run_keeps_topic_and_sections (svc : Services) (k : nat) :
  forall (n : Node) (st st' : State) (w w' : World),
    run svc k n st w = (Ok st', w') ->
    topic st' = topic st /\
    as_of st' = as_of st /\
    exists extra, sections st' = sections st ++ extra.
Proof.
  change (forall n st st' w w',
             run svc k n st w = (Ok st', w') -> grows_from st st').
  induction k as [|k IH]; intros n st st' w w' Hrun; [discriminate|].
  destruct (Node_eqb n END) eqn:E.
  - destruct n; try discriminate. inversion Hrun; subst.
    apply grows_from_refl.
  - assert (Hn : n <> END) by (intros ->; discriminate).
    rewrite run_step in Hrun by exact Hn.
    destruct (run_node svc n st w) as [[st1|e] w1] eqn:Hnode; [|discriminate].
    apply run_node_grows in Hnode.
    destruct (next_of n st1) as [[m|[|s ss]|]|e]; try discriminate.
    + eapply grows_from_trans; [exact Hnode | eapply IH; exact Hrun].
    + inversion Hrun; subst. exact Hnode.
    + destruct (gather _ (s :: ss) w1) as [[us|e] w2]; [|discriminate].
      eapply grows_from_trans; [exact Hnode|].
      eapply grows_from_trans; [apply grows_from_merge | eapply IH; exact Hrun].
    + inversion Hrun; subst. exact Hnode.
Qed.

(** A run from the orchestrator on a state that already holds a section of
    an earlier batch. *)
Lemma run_keeps_topic_and_sections_witness :
  exists st' w',
    run (Sample.services [] hybrid []) 3 orchestrator
        (Sample.state_with "hybrid" None [(7, lit "kept")]) world0
    = (Ok st', w') /\
    topic st' = lit "topic" /\
    exists extra, sections st' = [(7, lit "kept")] ++ extra.
Proof.
  eexists. eexists. split; [vm_compute; reflexivity|].
  destruct (run_keeps_topic_and_sections
              (Sample.services [] hybrid []) 3 orchestrator
              (Sample.state_with "hybrid" None [(7, lit "kept")])
              _ world0 _ eq_refl) as [Ht [_ Hs]].
  split; [exact Ht | exact Hs].
Defined.

(** ** Runs that skip research *)

Lemma no_research_calls_ret {A} (a : A) : no_research_calls (ret a).
Proof. intros w. reflexivity. Qed.

Lemma no_research_calls_raise {A} (e : exn) : no_research_calls (@raise A e).
Proof. intros w. reflexivity. Qed.

Lemma no_research_calls_lift {A} (r : Result A) : no_research_calls (lift r).
Proof. intros w. reflexivity. Qed.

Lemma no_research_calls_bind {A B} (m : M A) (f : A -> M B) :
  no_research_calls m -> (forall a, no_research_calls (f a)) ->
  no_research_calls (bind m f).
Proof.
  intros Hm Hf w. unfold bind. specialize (Hm w).
  destruct (m w) as [[a|e] w1]; simpl in *.
  - rewrite (Hf a w1). exact Hm.
  - exact Hm.
Qed.

Lemma no_research_calls_call {A} (e : Event) (r : Result A) :
  is_research_call e = false -> no_research_calls (call e r).
Proof.
  intros He w. unfold call. simpl. rewrite filter_app. simpl. rewrite He.
  apply app_nil_r.
Qed.

Lemma no_research_calls_write_text
      (svc : Services) (name content : str) :
  no_research_calls (write_text svc name content).
Proof.
  intros w. rewrite write_text_log, filter_app. simpl. apply app_nil_r.
Qed.

Lemma no_research_calls_gather {A B} (f : A -> M B) (l : list A) :
  (forall a, no_research_calls (f a)) -> no_research_calls (gather f l).
Proof.
  intros Hf. induction l as [|a l IH]; intros w; [reflexivity|].
  cbn [gather]. specialize (Hf a w).
  destruct (f a w) as [rb w1]. specialize (IH w1).
  destruct (gather f l w1) as [rbs w2]. simpl in *. congruence.
Qed.

Create HintDb quiet.

#[local] Hint Resolve no_research_calls_ret no_research_calls_raise
  no_research_calls_lift no_research_calls_write_text : quiet.

Lemma router_node_quiet (svc : Services) (st : State) :
  no_research_calls (router_node svc st).
Proof.
  unfold router_node. apply no_research_calls_bind.
  - now apply no_research_calls_call.
  - auto with quiet.
Qed.

Lemma orchestrator_node_quiet (svc : Services) (st : State) :
  no_research_calls (orchestrator_node svc st).
Proof.
  unfold orchestrator_node. apply no_research_calls_bind.
  - now apply no_research_calls_call.
  - auto with quiet.
Qed.

Lemma worker_node_quiet (svc : Services) (payload : Payload) :
  no_research_calls (worker_node svc payload).
Proof.
  unfold worker_node. apply no_research_calls_bind.
  - now apply no_research_calls_call.
  - auto with quiet.
Qed.

Lemma reducer_node_quiet (svc : Services) (st : State) :
  no_research_calls (reducer_node svc st).
Proof.
  unfold reducer_node. destruct (plan st); [|auto with quiet].
  apply no_research_calls_bind; auto with quiet.
Qed.

Lemma run_node_quiet (svc : Services) (n : Node) (st : State) :
  n <> research -> no_research_calls (run_node svc n st).
Proof.
  intros Hn. unfold run_node.
  destruct n; simpl; try congruence; auto with quiet;
    apply no_research_calls_bind; auto with quiet;
    auto using router_node_quiet, orchestrator_node_quiet, reducer_node_quiet.
Qed.

(** From the orchestrator on, no run calls the search tool or the
    normalizer. *)
Lemma run_after_research_quiet (svc : Services) (k : nat) :
  forall (n : Node) (st : State),
    (nodes_ahead n <= 4)%nat -> no_research_calls (run svc k n st).
Proof.
  induction k as [|k IH]; intros n st Hn; [apply no_research_calls_raise|].
  intros w.
  destruct (Node_eqb n END) eqn:E.
  - destruct n; try discriminate. reflexivity.
  - assert (Hne : n <> END) by (intros ->; discriminate).
    rewrite run_step by exact Hne.
    assert (Hnode : no_research_calls (run_node svc n st)).
    { apply run_node_quiet. intros ->. simpl in Hn. lia. }
    specialize (Hnode w).
    destruct (run_node svc n st w) as [[st1|e] w1]; simpl in Hnode;
      [|exact Hnode].
    destruct (next_of n st1) as [[m|[|s ss]|]|e] eqn:Hnext;
      try exact Hnode.
    + apply next_of_decreases in Hnext.
      rewrite (IH m st1) by lia. exact Hnode.
    + pose proof (no_research_calls_gather
                    (fun s => worker_node svc (send_arg s)) (s :: ss)
                    (fun s => worker_node_quiet svc (send_arg s)) w1) as Hw.
      destruct (gather _ (s :: ss) w1) as [[us|e] w2]; simpl in Hw.
      * rewrite (IH reducer) by (simpl; lia). congruence.
      * simpl. congruence.
Qed.

Lemma run_START (svc : Services) (k : nat) (st : State) (w : World) :
  run svc (S k) START st w = run svc k router st w.
Proof. reflexivity. Qed.

(** The step out of the router when the classifier answers. *)
Lemma run_router (svc : Services) (k : nat) (st : State) (w : World)
      (d : RouterDecision) :
  decider_invoke svc (decide_request st) = Ok d ->
  exists u,
    router_node svc st w
    = (Ok u, mkWorld (calls w ++ [CallDecider (decide_request st)]) (files w))
    /\ needs_research (apply_update u st) = d_needs_research d
    /\ run svc (S k) router st w
       = run svc k (if d_needs_research d then research else orchestrator)
             (apply_update u st)
             (mkWorld (calls w ++ [CallDecider (decide_request st)]) (files w)).
Proof.
  intros Hd.
  assert (Hnode : router_node svc st w
                  = (Ok (mkUpdate (Some (mode_str (d_mode d)))
                                  (Some (d_needs_research d))
                                  (Some (d_queries d)) None None
                                  (Some (dict_get_default
                                           (mode_str (d_mode d)) 3650
                                           recency_map))
                                  None None),
                     mkWorld (calls w ++ [CallDecider (decide_request st)])
                             (files w))).
  { unfold router_node, bind, call. rewrite Hd. reflexivity. }
  eexists. split; [exact Hnode|]. split; [reflexivity|].
  rewrite run_step by discriminate.
  change (run_node svc router st w)
    with (bind (router_node svc st) (fun u => ret (apply_update u st)) w).
  unfold bind. rewrite Hnode. unfold ret.
  unfold next_of. simpl conditional_edge. cbv iota beta.
  unfold route_next. reflexivity.
Qed.

(** X13: when the classifier answers that no research is needed, the whole
    run, however it ends, makes no call to the search tool and none to the
    normalizer: the router's edge leads straight to the orchestrator. *)
Theorem run_without_research_never_searches
        (svc : Services) (st : State) (w : World) (d : RouterDecision)
        (k : nat) :
  decider_invoke svc (decide_request st) = Ok d ->
  d_needs_research d = false ->
  filter is_research_call (calls (snd (run svc k START st w)))
  = filter is_research_call (calls w) /\
  filter is_research_call (calls (snd (invoke svc st w)))
  = filter is_research_call (calls w).
Proof.
  intros Hd Hnr.
  assert (Hall : forall j, filter is_research_call
                                  (calls (snd (run svc j START st w)))
                           = filter is_research_call (calls w)).
  { intros [|[|j]]; try reflexivity.
    rewrite run_START.
    destruct (run_router svc j st w d Hd) as [u [_ [_ Hstep]]].
    rewrite Hstep, Hnr.
    rewrite run_after_research_quiet by (simpl; lia).
    simpl. rewrite filter_app. simpl. apply app_nil_r. }
  split; [apply Hall | apply (Hall 25%nat)].
Qed.

(** A closed-book run from the initial state: the decider, the planner,
    two writers and the file, and no search. *)
Lemma run_without_research_never_searches_witness :
  filter is_research_call
         (calls (snd (invoke SampleApp.no_research
                             (_initial_state (lit "x") (lit "2026-02-19"))
                             world0)))
  = [].
Proof.
  exact (proj2 (run_without_research_never_searches
                  SampleApp.no_research
                  (_initial_state (lit "x") (lit "2026-02-19")) world0
                  _ 25 eq_refl eq_refl)).
Defined.

(** ** The reducer's file *)





(** ** Reading the title back *)

Lemma splitlines_first_line (line rest acc : str) :
  forallb (fun c => negb (is_linebreak c)) line = true ->
  splitlines_acc acc (line ++ LF :: rest)
  = (rev acc ++ line) :: splitlines_acc [] rest.
Proof.
  revert acc. induction line as [|c line IH]; intros acc Hline.
  - simpl. rewrite app_nil_r. destruct rest; reflexivity.
  - simpl in Hline. apply andb_true_iff in Hline. destruct Hline as [Hc Hl].
    apply negb_true_iff in Hc. simpl. rewrite Hc. rewrite IH by exact Hl.
    simpl. now rewrite <- app_assoc.
Qed.

(** X15: the title read back from a document the reducer wrote is the
    plan's title stripped, or the fallback when that is empty, provided the
    title holds no line boundary: the first line of the document is its
    heading. *)
Theorem extract_title_of_reduced_document
        (p : Plan) (sections : list (Z * str)) (fallback : str) :
  forallb (fun c => negb (is_linebreak c)) (blog_title p) = true ->
  extract_title_from_md (reducer_final_md p sections) fallback
  = if truthy (strip (blog_title p)) then strip (blog_title p) else fallback.
Proof.
  intros Htitle. unfold extract_title_from_md, splitlines, reducer_final_md.
  change (lit "# " ++ blog_title p ++ [LF; LF] ++ reducer_body sections ++ [LF])
    with ((35 :: 32 :: blog_title p)%N
          ++ LF :: (LF :: reducer_body sections ++ [LF])).
  rewrite splitlines_first_line.
  - reflexivity.
  - simpl. exact Htitle.
Qed.

Lemma extract_title_of_reduced_document_witness :
  extract_title_from_md (reducer_final_md Sample.plan3 Sample.arrived)
                        (lit "blog")
  = lit "Why: a/b?".
Proof.
  rewrite (extract_title_of_reduced_document
             Sample.plan3 Sample.arrived (lit "blog") eq_refl).
  reflexivity.
Defined.

(** ** The download name *)

Lemma sub_spaces_in (b : bool) (s : str) (c : char) :
  In c (sub_spaces b s) ->
  c = UNDERSCORE \/ (In c s /\ isspace c = false).
Proof.
  revert b. induction s as [|x s IH]; intros b; simpl; [tauto|].
  destruct (isspace x) eqn:E.
  - destruct b; simpl.
    + intros H. destruct (IH _ H) as [?|[? ?]]; auto.
    + intros [<-|H]; [auto|]. destruct (IH _ H) as [?|[? ?]]; auto.
  - simpl. intros [<-|H]; [auto|]. destruct (IH _ H) as [?|[? ?]]; auto.
Qed.

Lemma lstrip_chars_split (cs : list char) (s : str) :
  exists pre, s = pre ++ lstrip_chars cs s.
Proof.
  induction s as [|c s [pre Heq]]; simpl.
  - now exists [].
  - destruct (existsb (N.eqb c) cs).
    + exists (c :: pre). simpl. congruence.
    + now exists [].
Qed.

Lemma lstrip_chars_head (cs : list char) (s : str) (c : char) (r : str) :
  lstrip_chars cs s = c :: r -> existsb (N.eqb c) cs = false.
Proof.
  induction s as [|x s IH]; simpl; [discriminate|].
  destruct (existsb (N.eqb x) cs) eqn:E; [exact IH|].
  intros H. inversion H; subst. exact E.
Qed.

Lemma strip_chars_in (cs : list char) (s : str) (c : char) :
  In c (strip_chars cs s) -> In c s.
Proof.
  unfold strip_chars. intros H. apply in_rev in H.
  destruct (lstrip_chars_split cs (rev (lstrip_chars cs s))) as [pre Heq].
  assert (H1 : In c (rev (lstrip_chars cs s))).
  { rewrite Heq. apply in_or_app. now right. }
  apply in_rev in H1.
  destruct (lstrip_chars_split cs s) as [pre' Heq'].
  rewrite Heq'. apply in_or_app. now right.
Qed.

(** Neither end of a string stripped of [cs] is one of [cs]. *)
Lemma strip_chars_ends (cs : list char) (s : str) (c : char) :
  hd_error (strip_chars cs s) = Some c \/
  hd_error (rev (strip_chars cs s)) = Some c ->
  existsb (N.eqb c) cs = false.
Proof.
  unfold strip_chars. rewrite rev_involutive. intros [H|H].
  - destruct (lstrip_chars_split cs (rev (lstrip_chars cs s))) as [pre Heq].
    apply (f_equal (@rev char)) in Heq.
    rewrite rev_involutive, rev_app_distr in Heq.
    destruct (rev (lstrip_chars cs (rev (lstrip_chars cs s)))) as [|x r];
      [discriminate|].
    simpl in H. inversion H; subst x.
    apply (lstrip_chars_head cs s c (r ++ rev pre)). exact Heq.
  - destruct (lstrip_chars cs (rev (lstrip_chars cs s))) as [|x r] eqn:E;
      [discriminate|].
    simpl in H. inversion H; subst x.
    apply (lstrip_chars_head cs _ c r E).
Qed.

(** X16: whatever [str.lower] does, the download name [safe_slug] makes of
    a title is never empty, is made of the characters a to z, 0 to 9,
    underscore and hyphen only (so it holds no space and none of the
    characters the reducer replaces), and neither starts nor ends with an
    underscore. *)
Theorem safe_slug_is_a_clean_name (str_lower : str -> str) (title : str) :
  let s := safe_slug str_lower title in
  s <> [] /\
  (forall c, In c s ->
             is_slug_char c = true /\ c <> 32%N /\ is_unsafe c = false) /\
  hd_error s <> Some UNDERSCORE /\
  hd_error (rev s) <> Some UNDERSCORE.
Proof.
  intros s. unfold safe_slug in s.
  set (f := filter is_slug_char (str_lower (strip title))) in *.
  set (h := strip_chars [UNDERSCORE] (sub_spaces false f)) in *.
  assert (Hgood : forall c, is_slug_char c = true -> c <> 32%N ->
                            is_unsafe c = false).
  { intros c Hc _. destruct (is_unsafe c) eqn:E; [|reflexivity].
    apply is_unsafe_spec in E. simpl in E.
    repeat (destruct E as [<-|E]; [discriminate Hc|]). contradiction. }
  assert (Hh : forall c, In c h -> is_slug_char c = true /\ c <> 32%N).
  { intros c Hc. apply strip_chars_in in Hc. apply sub_spaces_in in Hc.
    destruct Hc as [->|[Hin Hsp]]; [split; [reflexivity | discriminate]|].
    apply filter_In in Hin. destruct Hin as [_ Hslug].
    split; [exact Hslug|]. intros ->. discriminate Hsp. }
  assert (Hends : forall c, hd_error h = Some c \/ hd_error (rev h) = Some c ->
                            c <> UNDERSCORE).
  { intros c Hc ->. apply strip_chars_ends in Hc. discriminate Hc. }
  unfold s. destruct h as [|x r] eqn:Eh; simpl truthy; cbv iota.
  - repeat split; try discriminate.
    + simpl in H. repeat (destruct H as [<-|H]; [reflexivity|]). contradiction.
    + simpl in H. repeat (destruct H as [<-|H]; [discriminate|]). contradiction.
    + simpl in H. repeat (destruct H as [<-|H]; [reflexivity|]). contradiction.
  - repeat split; try discriminate.
    + apply Hh. exact H.
    + apply Hh. exact H.
    + destruct (Hh c H). now apply Hgood.
    + intros Hc. exact (Hends _ (or_introl Hc) eq_refl).
    + intros Hc. exact (Hends _ (or_intror Hc) eq_refl).
Qed.

(** ** Sections under the same id *)

Lemma filter_insert_by {A} (key : A -> Z) (k : Z) (x : A) (l : list A) :
  filter (fun y => key y =? k) (insert_by key x l)
  = if key x =? k then x :: filter (fun y => key y =? k) l
    else filter (fun y => key y =? k) l.
Proof.
  induction l as [|y l IH]; simpl; [reflexivity|].
  destruct (key x <=? key y) eqn:E; simpl; [reflexivity|].
  rewrite IH. apply Z.leb_gt in E.
  destruct (key x =? k) eqn:Ex, (key y =? k) eqn:Ey; try reflexivity.
  apply Z.eqb_eq in Ex, Ey. lia.
Qed.

(** X17: the reducer orders the collected pairs by id and by nothing else:
    the order it assembles is ascending in the id, holds every pair exactly
    as often as it was collected, and keeps the pairs of one id (if the
    plan gave the same id to several tasks) in the order in which they
    arrived. So no section is dropped. *)
Theorem reducer_sorts_by_id_stably (sections : list (Z * str)) :
  let ordered := sorted fst sections in
  ordered_sections sections = map snd ordered /\
  StronglySorted (fun a b => fst a <= fst b) ordered /\
  Permutation ordered sections /\
  (forall id,
      filter (fun pair => fst pair =? id) ordered
      = filter (fun pair => fst pair =? id) sections) /\
  List.length (ordered_sections sections) = List.length sections.
Proof.
  intros ordered. split; [reflexivity|].
  split; [apply sorted_sorted|]. split; [apply sorted_perm|]. split.
  - intros id. unfold ordered.
    induction sections as [|x l IH]; simpl; [reflexivity|].
    rewrite filter_insert_by, IH. reflexivity.
  - unfold ordered_sections. rewrite length_map.
    apply Permutation_length, sorted_perm.
Qed.

(** Two sections under id 1 and one under id 0. *)
Lemma reducer_sorts_by_id_stably_witness :
  ordered_sections [(1, lit "x"); (0, lit "z"); (1, lit "a")]
  = [lit "z"; lit "x"; lit "a"].
Proof.
  rewrite (proj1 (reducer_sorts_by_id_stably
                    [(1, lit "x"); (0, lit "z"); (1, lit "a")])).
  reflexivity.
Defined.

(** [safe_slug] of a title with punctuation, and of one with nothing
    usable in it. *)
Lemma safe_slug_is_a_clean_name_witness :
  safe_slug ascii_lower (lit " Why: a/b? ") = lit "why_ab" /\
  safe_slug ascii_lower (lit " ?? ") <> [].
Proof.
  split; [reflexivity|].
  exact (proj1 (safe_slug_is_a_clean_name ascii_lower (lit " ?? "))).
Defined.

(** ** The window of the recency filter *)

(** X18: the recency filter is monotone in its cutoff: an item that passes
    a later cutoff passes every earlier one, so filtering with the earlier
    cutoff first loses nothing of what the later one keeps. *)
Theorem is_fresh_monotone
        (svc : Services) (c1 c2 : date) (ev : list EvidenceItem) :
  c1 <= c2 ->
  (forall item, is_fresh svc c2 item = true -> is_fresh svc c1 item = true) /\
  filter (is_fresh svc c2) (filter (is_fresh svc c1) ev) = filter (is_fresh svc c2) ev /\
  incl (filter (is_fresh svc c2) ev) (filter (is_fresh svc c1) ev).
Proof.
  intros Hle.
  assert (Hmono : forall item, is_fresh svc c2 item = true ->
                               is_fresh svc c1 item = true).
  { intros item. unfold is_fresh.
    destruct (iso_to_date svc (published_at item)); [|discriminate].
    rewrite !Z.leb_le. lia. }
  split; [exact Hmono|]. split.
  - induction ev as [|e ev IH]; simpl; [reflexivity|].
    destruct (is_fresh svc c1 e) eqn:E1; simpl.
    + now rewrite IH.
    + destruct (is_fresh svc c2 e) eqn:E2; [|exact IH].
      apply Hmono in E2. congruence.
  - intros item Hin. apply filter_In in Hin. apply filter_In.
    split; [tauto | apply Hmono; tauto].
Qed.

(** Cutoffs 45 and 7 days before 2026-02-19: the item of 2026-02-10 passes
    the first only. *)
Lemma is_fresh_monotone_witness :
  filter (is_fresh (Sample.services [] hybrid []) 739659)
         Sample.dated_items
  = [Sample.item "new" "u1" (Some "2026-02-18"%string)] /\
  incl (filter (is_fresh (Sample.services [] hybrid []) 739659)
         Sample.dated_items)
       (filter (is_fresh (Sample.services [] hybrid []) 739621)
               Sample.dated_items).
Proof.
  split; [reflexivity|].
  apply (is_fresh_monotone (Sample.services [] hybrid []) 739621 739659
                           Sample.dated_items). lia.
Defined.

(** ** The name shown and the name saved *)

Lemma re_sub_unsafe_fixed (s : str) :
  re_sub_unsafe s = s <-> forallb (fun c => negb (is_unsafe c)) s = true.
Proof.
  induction s as [|c s IH]; simpl; [tauto|].
  rewrite andb_true_iff, <- IH. destruct (is_unsafe c) eqn:E; simpl.
  - split.
    + intros H. inversion H as [[Hc Hs]]. subst c. discriminate E.
    + intros [H _]. discriminate H.
  - split.
    + intros H. inversion H as [Hs]. rewrite Hs. auto.
    + intros [_ H]. now rewrite H.
Qed.

(** X19: the file name that [run] shows in its summary is the title
    followed by [.md], untouched; it is the name the reducer saved the
    document under exactly when the title holds none of the characters the
    reducer replaces. *)
Theorem summary_names_saved_file_iff_title_safe (p : Plan) :
  summary_saved_as p = reducer_filename p
  <-> forallb (fun c => negb (is_unsafe c)) (blog_title p) = true.
Proof.
  unfold summary_saved_as, reducer_filename.
  rewrite <- re_sub_unsafe_fixed. split.
  - intros H. apply app_inv_tail in H. congruence.
  - intros H. now rewrite H.
Qed.

(** The title [Why: a/b?] is shown as [Why: a/b?.md] and saved as
    [Why_ a_b_.md]; the title [T] is shown as it is saved. *)
Lemma summary_names_saved_file_iff_title_safe_witness :
  summary_saved_as Sample.plan3 <> reducer_filename Sample.plan3 /\
  summary_saved_as Sample.plan2 = reducer_filename Sample.plan2.
Proof.
  split.
  - intros H.
    apply (proj1 (summary_names_saved_file_iff_title_safe Sample.plan3)) in H.
    discriminate H.
  - apply (proj2 (summary_names_saved_file_iff_title_safe Sample.plan2)).
    reflexivity.
Defined.
